(** * InferLLM tensor core: buffer ownership and materialisation

    A shallow embedding of [src/core/tensor.cpp]: the two dtype sizing
    functions, and the four lifecycle operations of [Tensor]
    ([prepare_data], [recall_data], [set_shared_memory] and the destructor).

    Pointers and sizes are integers ([Z]); the null pointer is [0].  The
    one place where the source computes with a length, the array size of
    [new float[length]], is checked against [SIZE_MAX].  The
    calls the tensor makes on its collaborators (device, weights file, CUDA
    runtime, host heap) are recorded, in program order, in a trace of
    events; what those calls return is given by oracles that may depend on
    the whole history, so every statement holds for every allocator and
    every copy engine. *)

From Stdlib Require Import ZArith List String Bool Lia.
Import ListNotations.
Open Scope Z_scope.

(** ** Outcomes and the effect monad *)

Definition ptr := Z.
Definition nullptr : ptr := 0.
Definition is_null (p : ptr) : bool := p =? nullptr.

(** [cudaError_t]: an integer code, [cudaSuccess] being zero. *)
Definition cudaError_t := Z.
Definition cudaSuccess : cudaError_t := 0.

(** One entry per call on a collaborator, with the arguments passed and
    the value returned. *)
Inductive Event : Type :=
| EvAllocate (length : Z) (handle : ptr)       (* m_device->allocate(length) *)
| EvFreeDevice (handle : ptr)                  (* m_device->free_device(p) *)
| EvGetMmapData (length offset : Z) (p : ptr)  (* m_file->get_mmap_data(..) *)
| EvReadData (dst : ptr) (length offset : Z)   (* m_file->read_data(..) *)
| EvCudaMemcpy (dst src : ptr) (count : Z) (err : cudaError_t)
| EvPrintf (err : cudaError_t)                 (* "CUDA Memcpy Error: %s\n" *)
| EvNewArray (bytes : Z) (p : ptr)             (* new float[n] *)
| EvDeleteArray (p : ptr).                     (* delete[] p *)

Definition Trace := list Event.

(** A call either returns, or stops the process in a fatal assertion, or
    is left by a C++ exception that nothing in this file catches. *)
Inductive Outcome (A : Type) : Type :=
| Done (a : A) (tr : Trace)
| Fatal (msg : string) (tr : Trace)
| Thrown (exn : string) (tr : Trace).
Arguments Done {A} a tr.
Arguments Fatal {A} msg tr.
Arguments Thrown {A} exn tr.

Definition M (A : Type) : Type := Trace -> Outcome A.

Definition ret {A} (a : A) : M A := fun tr => Done a tr.

Definition bind {A B} (m : M A) (k : A -> M B) : M B :=
  fun tr =>
    match m tr with
    | Done a tr' => k a tr'
    | Fatal msg tr' => Fatal msg tr'
    | Thrown exn tr' => Thrown exn tr'
    end.

Notation "x <- m ;; k" := (bind m (fun x => k))
  (at level 61, m at next level, right associativity).
Notation "m ;;; k" := (bind m (fun _ => k))
  (at level 61, right associativity).

Definition emit (e : Event) : M unit := fun tr => Done tt (tr ++ [e]).

(** Modelled from the spec: [INFER_ASSERT] is a macro of [utils.h], which
    is not part of the sources at hand; a failed assertion is fatal and
    carries its diagnostic. *)
Definition INFER_ASSERT (cond : bool) (msg : string) : M unit :=
  fun tr => if cond then Done tt tr else Fatal msg tr.

(** ** The dtype format table *)

(** Modelled from the spec: the enumeration [DType] is declared in
    [kern/kernel_define.h], which is not part of the sources at hand.  The
    eight named values are the ones the two [switch] statements know;
    [OtherDType] stands for every other value of the enumeration type, the
    ones that reach [default:]. *)
Inductive DType : Type :=
| Float32 | Int32 | Float16 | Int16 | Float8 | Uint8 | Int8 | Int4
| OtherDType (raw : Z).

(** The constants of [kern/kernel_define.h] the table refers to: the
    element counts of the two quantised blocks and the sizes of their
    structs.  They are parameters of the development. *)
Record KernelDefine : Type := {
  QK80 : Z;
  QK40 : Z;
  sizeof_BlockQ80 : Z;
  sizeof_BlockQ40 : Z
}.

(** Modelled from the spec: a quantised block is N elements packed into a
    byte blob plus one shared scale; the 4-bit format has N = 32.  With a
    4-byte float scale that is 4 + 32/2 bytes for the 4-bit block and
    4 + 32 bytes for the 8-bit block. *)
Definition inferllm_kernel_define : KernelDefine :=
  {| QK80 := 32; QK40 := 32; sizeof_BlockQ80 := 36; sizeof_BlockQ40 := 20 |}.

Definition is_dense (d : DType) : bool :=
  match d with
  | Float32 | Int32 | Float16 | Int16 | Float8 | Uint8 => true
  | _ => false
  end.

Definition is_known (d : DType) : bool :=
  match d with
  | OtherDType _ => false
  | _ => true
  end.

Section DTypeTable.
Variable K : KernelDefine.

(** [float inferllm::dtype_in_byte(DType)]; every value returned is a
    small integer, which the conversion to [float] represents exactly. *)
Definition dtype_in_byte (dtype : DType) : M Z :=
  match dtype with
  | Float32 | Int32 => ret 4
  | Float16 | Int16 => ret 2
  | Float8 | Uint8 => ret 1
  | Int8 => ret (sizeof_BlockQ80 K)
  | Int4 => ret (sizeof_BlockQ40 K)
  | OtherDType _ =>
      INFER_ASSERT false "No support data type." ;;; ret 0
  end.

(** [uint32_t inferllm::dtype_block_size(DType)] *)
Definition dtype_block_size (dtype : DType) : M Z :=
  match dtype with
  | Float32 | Int32 | Float16 | Int16 | Float8 | Uint8 => ret 1
  | Int8 => ret (QK80 K)
  | Int4 => ret (QK40 K)
  | OtherDType _ =>
      INFER_ASSERT false "No support data type." ;;; ret 0
  end.

(** The size in bytes of one storage block, read off the layout and not
    off the table: a dense element is as wide as its name says, a
    quantised block is its struct. *)
Definition one_block_bytes (dtype : DType) : Z :=
  match dtype with
  | Float32 | Int32 => 32 / 8
  | Float16 | Int16 => 16 / 8
  | Float8 | Uint8 => 8 / 8
  | Int8 => sizeof_BlockQ80 K
  | Int4 => sizeof_BlockQ40 K
  | OtherDType _ => 0
  end.
End DTypeTable.

(** ** Collaborators *)

(** Modelled from the spec: [KernelType] is declared outside the sources at
    hand; a device is either the accelerator, which the source names
    [KernelType::GPU], or a host kind. *)
Inductive KernelType : Type := GPU | HostKernel.

Definition is_GPU (k : KernelType) : bool :=
  match k with GPU => true | HostKernel => false end.

(** The device a tensor refers to.  [dev_allocate tr n] is the handle the
    allocator hands out for [n] bytes after the history [tr]; it may be
    null, and it may reuse a handle that was freed. *)
Record Device : Type := {
  dev_type : KernelType;
  dev_allocate : Trace -> Z -> ptr
}.

(** The weights file a tensor may refer to. *)
Record InputFile : Type := {
  file_enable_mmap : bool;
  file_get_mmap_data : Z -> Z -> ptr
}.

(** What the CUDA runtime and the host heap answer: the status of a copy,
    and the address of a fresh array of a given size in bytes, or [None]
    when the heap cannot provide it. *)
Record Runtime : Type := {
  rt_cudaMemcpy : Trace -> ptr -> ptr -> Z -> cudaError_t;
  rt_new : Trace -> Z -> option ptr
}.

Definition sizeof_float : Z := 4.

(** The largest value of [size_t], 64 bits wide. *)
Definition SIZE_MAX : Z := 2 ^ 64 - 1.

Definition allocate (dev : Device) (length : Z) : M ptr :=
  fun tr => let h := dev_allocate dev tr length in
            Done h (tr ++ [EvAllocate length h]).

Definition free_device (dev : Device) (p : ptr) : M unit :=
  emit (EvFreeDevice p).

Definition get_mmap_data (f : InputFile) (length offset : Z) : M ptr :=
  let p := file_get_mmap_data f length offset in
  emit (EvGetMmapData length offset p) ;;; ret p.

Definition read_data (f : InputFile) (dst : ptr) (length offset : Z) : M unit :=
  emit (EvReadData dst length offset).

Definition cudaMemcpy (rt : Runtime) (dst src : ptr) (count : Z) : M cudaError_t :=
  fun tr => let e := rt_cudaMemcpy rt tr dst src count in
            Done e (tr ++ [EvCudaMemcpy dst src count e]).

Definition printf_cuda_error (err : cudaError_t) : M unit :=
  emit (EvPrintf err).

(** [new float[n]]: [n] elements of [sizeof(float)] bytes each.  The
    expression throws [std::bad_array_new_length] when the size in bytes
    does not fit [size_t], and [std::bad_alloc] when the heap does not
    provide the array; no array exists then. *)
Definition new_float_array (rt : Runtime) (n : Z) : M ptr :=
  fun tr =>
    if SIZE_MAX <? n * sizeof_float
    then Thrown "std::bad_array_new_length" tr
    else match rt_new rt tr (n * sizeof_float) with
         | Some p => Done p (tr ++ [EvNewArray (n * sizeof_float) p])
         | None => Thrown "std::bad_alloc" tr
         end.

Definition delete_array (p : ptr) : M unit :=
  emit (EvDeleteArray p).

(** ** The tensor *)

Inductive TensorState : Type := Own | OutSide.

Definition is_OutSide (s : TensorState) : bool :=
  match s with OutSide => true | Own => false end.

Definition is_Own (s : TensorState) : bool :=
  match s with Own => true | OutSide => false end.

Record Tensor : Type := {
  m_data : ptr;
  m_state : TensorState;
  m_shared : bool;
  m_device : Device;
  m_file : option InputFile;
  m_file_offset : Z;
  m_dtype : DType;
  m_length : Z
}.

Definition set_data (t : Tensor) (p : ptr) : Tensor :=
  {| m_data := p; m_state := m_state t; m_shared := m_shared t;
     m_device := m_device t; m_file := m_file t;
     m_file_offset := m_file_offset t;
     m_dtype := m_dtype t; m_length := m_length t |}.

Definition set_state (t : Tensor) (s : TensorState) : Tensor :=
  {| m_data := m_data t; m_state := s; m_shared := m_shared t;
     m_device := m_device t; m_file := m_file t;
     m_file_offset := m_file_offset t;
     m_dtype := m_dtype t; m_length := m_length t |}.

Definition set_shared (t : Tensor) (b : bool) : Tensor :=
  {| m_data := m_data t; m_state := m_state t; m_shared := b;
     m_device := m_device t; m_file := m_file t;
     m_file_offset := m_file_offset t;
     m_dtype := m_dtype t; m_length := m_length t |}.

Definition ceil_div (a b : Z) : Z := (a + b - 1) / b.

Section TensorOps.
Variable K : KernelDefine.
Variable rt : Runtime.

(** Modelled from the spec: [Tensor::length_in_byte()] is defined in
    [tensor.h], which is not part of the sources at hand.  For a dense
    dtype it is element count times byte size; for a block dtype it is
    ceil(element count / block count) times byte size.  Both numbers come
    from the table, so an unknown dtype stops it there. *)
Definition length_in_byte (t : Tensor) : M Z :=
  byte_size <- dtype_in_byte K (m_dtype t) ;;
  block_count <- dtype_block_size K (m_dtype t) ;;
  if is_dense (m_dtype t)
  then ret (m_length t * byte_size)
  else ret (ceil_div (m_length t) block_count * byte_size).

(** [TensorState Tensor::prepare_data()]: the returned pair is the value
    returned and the fields of the object afterwards. *)
Definition prepare_data (t : Tensor) : M (TensorState * Tensor) :=
  length <- length_in_byte t ;;
  t <- (if is_null (m_data t) && is_OutSide (m_state t) then
          match m_file t with
          | Some file =>
              if file_enable_mmap file then
                if is_GPU (dev_type (m_device t)) then
                  temp_ptr <- get_mmap_data file length (m_file_offset t) ;;
                  data <- allocate (m_device t) length ;;
                  let t := set_data t data in
                  error <- cudaMemcpy rt (m_data t) temp_ptr length ;;
                  (if negb (error =? cudaSuccess)
                   then printf_cuda_error error
                   else ret tt) ;;;
                  ret t
                else
                  data <- get_mmap_data file length (m_file_offset t) ;;
                  ret (set_data t data)
              else if is_null (m_data t) then
                if is_GPU (dev_type (m_device t)) then
                  data <- allocate (m_device t) length ;;
                  let t := set_data t data in
                  temp_ptr <- new_float_array rt length ;;
                  read_data file temp_ptr length (m_file_offset t) ;;;
                  cudaMemcpy rt (m_data t) temp_ptr length ;;;
                  delete_array temp_ptr ;;;
                  ret t
                else
                  data <- allocate (m_device t) length ;;
                  let t := set_data t data in
                  read_data file (m_data t) length (m_file_offset t) ;;;
                  ret t
              else ret t
          | None =>
              data <- allocate (m_device t) length ;;
              ret (set_data t data)
          end
        else ret t) ;;
  let t := set_state t Own in
  ret (m_state t, t).

(** [TensorState Tensor::recall_data()] *)
Definition recall_data (t : Tensor) : M (TensorState * Tensor) :=
  if m_shared t then ret (m_state t, t)
  else
    t <- (if match m_file t with None => true | Some _ => false end
             && negb (is_null (m_data t)) && is_Own (m_state t)
          then
            free_device (m_device t) (m_data t) ;;;
            ret (set_data t nullptr)
          else ret t) ;;
    let t := set_state t OutSide in
    ret (m_state t, t).

(** [void Tensor::set_shared_memory(void* data, size_t size)]; the
    disjunction of the assertion is evaluated left to right, so the
    length is not computed for a null pointer. *)
Definition set_shared_memory (t : Tensor) (data : ptr) (size : Z) : M Tensor :=
  cond <- (if is_null data then ret true
           else length <- length_in_byte t ;; ret (length <=? size)) ;;
  INFER_ASSERT cond "the memory set to tensor is not enough" ;;;
  let t := set_data t data in
  let t := set_state t Own in
  let t := set_shared t true in
  ret t.

(** [Tensor::~Tensor()]; the value returned is the fields of the object
    when the body ends. *)
Definition destroy (t : Tensor) : M Tensor :=
  t <- (if is_Own (m_state t)
        then r <- recall_data t ;; ret (snd r)
        else ret t) ;;
  match m_file t with
  | Some file =>
      if negb (file_enable_mmap file) && negb (is_null (m_data t))
      then free_device (m_device t) (m_data t) ;;; ret t
      else ret t
  | None => ret t
  end.

(** *** Lifecycles: sequences of operations on one tensor *)

Inductive Op : Type := Materialize | Release.

Definition step (o : Op) (t : Tensor) : M (TensorState * Tensor) :=
  match o with
  | Materialize => prepare_data t
  | Release => recall_data t
  end.

Fixpoint run (ops : list Op) (t : Tensor) : M Tensor :=
  match ops with
  | [] => ret t
  | o :: ops' => r <- step o t ;; run ops' (snd r)
  end.
End TensorOps.

(** ** Reading a trace *)

Definition is_alloc (e : Event) : bool :=
  match e with EvAllocate _ _ => true | _ => false end.

Definition is_free (e : Event) : bool :=
  match e with EvFreeDevice _ => true | _ => false end.

Definition is_free_of (p : ptr) (e : Event) : bool :=
  match e with EvFreeDevice q => q =? p | _ => false end.

Definition count (p : Event -> bool) (tr : Trace) : nat :=
  List.length (filter p tr).

(** ** Concrete collaborators, for running the model *)

(** An allocator that never returns null and never reuses a handle. *)
Definition bump_allocate (tr : Trace) (n : Z) : ptr :=
  4096 + 256 * Z.of_nat (count is_alloc tr).

Definition gpu_device : Device :=
  {| dev_type := GPU; dev_allocate := bump_allocate |}.

Definition host_device : Device :=
  {| dev_type := HostKernel; dev_allocate := bump_allocate |}.

Definition mmap_file : InputFile :=
  {| file_enable_mmap := true;
     file_get_mmap_data := fun _ offset => 1000000 + offset |}.

Definition plain_file : InputFile :=
  {| file_enable_mmap := false;
     file_get_mmap_data := fun _ _ => nullptr |}.

Definition good_runtime : Runtime :=
  {| rt_cudaMemcpy := fun _ _ _ _ => cudaSuccess;
     rt_new := fun _ _ => Some 2000000 |}.

(** A runtime whose every copy fails. *)
Definition bad_runtime : Runtime :=
  {| rt_cudaMemcpy := fun _ _ _ _ => 1;
     rt_new := fun _ _ => Some 2000000 |}.

(** A runtime whose host heap is exhausted. *)
Definition exhausted_runtime : Runtime :=
  {| rt_cudaMemcpy := fun _ _ _ _ => cudaSuccess;
     rt_new := fun _ _ => None |}.

(** A tensor as constructed: no data, [OutSide], not shared. *)
Definition fresh_tensor (dev : Device) (file : option InputFile)
    (offset : Z) (dtype : DType) (n : Z) : Tensor :=
  {| m_data := nullptr; m_state := OutSide; m_shared := false;
     m_device := dev; m_file := file; m_file_offset := offset;
     m_dtype := dtype; m_length := n |}.

(** An activation buffer, and weights on each of the four file paths. *)
Definition activation_tensor : Tensor :=
  fresh_tensor host_device None 0 Int4 100.
Definition float_tensor : Tensor :=
  fresh_tensor host_device None 0 Float32 10.
Definition mapped_gpu_weight : Tensor :=
  fresh_tensor gpu_device (Some mmap_file) 64 Float32 10.
Definition mapped_host_weight : Tensor :=
  fresh_tensor host_device (Some mmap_file) 64 Float32 10.
Definition staged_gpu_weight : Tensor :=
  fresh_tensor gpu_device (Some plain_file) 64 Float32 10.
Definition read_host_weight : Tensor :=
  fresh_tensor host_device (Some plain_file) 64 Float32 10.

(** A tensor that is already materialised. *)
Definition materialized_tensor : Tensor :=
  set_state (set_data float_tensor 4096) Own.

(** ** Predicates on tensors *)

(** The fields after a successful [set_shared_memory]. *)
Definition bound (t : Tensor) (data : ptr) : Tensor :=
  set_shared (set_state (set_data t data) Own) true.

(** What the lifecycle keeps for a tensor that owns what it allocates:
    not shared, no file, and no handle while [OutSide]. *)
Definition self_owned (t : Tensor) : Prop :=
  m_shared t = false /\ m_file t = None /\
  (m_state t = OutSide -> m_data t = nullptr).

(** Two tensors that differ in their state at most. *)
Definition same_buffer (t t' : Tensor) : Prop :=
  m_data t' = m_data t /\ m_shared t' = m_shared t /\
  m_file t' = m_file t /\ m_dtype t' = m_dtype t /\
  m_length t' = m_length t.

(** A host device whose first allocation fails with a null handle, and a
    tensor on it. *)
Definition starved_device : Device :=
  {| dev_type := HostKernel;
     dev_allocate := fun tr _ =>
       match count is_alloc tr with O => nullptr | S _ => 4096 end |}.

Definition starved_tensor : Tensor :=
  fresh_tensor starved_device None 0 Float32 10.

(** A byte tensor on the accelerator, its file not mapped, whose staging
    array of floats would not fit [size_t]. *)
Definition huge_gpu_weight : Tensor :=
  fresh_tensor gpu_device (Some plain_file) 0 Uint8 (2 ^ 62).

(** ** The staging array *)

(** The tensors whose [prepare_data] gets to [new float[length]]. *)
Definition on_staging_path (t : Tensor) : bool :=
  is_null (m_data t) && is_OutSide (m_state t) &&
  match m_file t with
  | Some file => negb (file_enable_mmap file)
  | None => false
  end &&
  is_GPU (dev_type (m_device t)).

(** [new float[len]] returns when it is evaluated after [tr1]. *)
Definition new_returns (rt : Runtime) (tr1 : Trace) (len : Z) : Prop :=
  len * sizeof_float <= SIZE_MAX /\
  rt_new rt tr1 (len * sizeof_float) <> None.

(** The staging array, where [prepare_data] needs one, is provided. *)
Definition staging_returns (rt : Runtime) (t : Tensor) (tr : Trace)
    (len : Z) : Prop :=
  on_staging_path t = true ->
  new_returns rt
    (tr ++ [EvAllocate len (dev_allocate (m_device t) tr len)]) len.

(** ** Predicates on events *)

Definition is_mmap_event (e : Event) : bool :=
  match e with EvGetMmapData _ _ _ => true | _ => false end.

Definition is_printf (e : Event) : bool :=
  match e with EvPrintf _ => true | _ => false end.

(** The sizes and the offset an event of [prepare_data] may carry for a
    tensor of [len] bytes at file offset [offset]. *)
Definition event_fits (len offset : Z) (e : Event) : Prop :=
  match e with
  | EvAllocate n _ => n = len
  | EvGetMmapData n o _ => n = len /\ o = offset
  | EvReadData _ n o => n = len /\ o = offset
  | EvCudaMemcpy _ _ n _ => n = len
  | EvNewArray n _ => n = len * sizeof_float
  | EvFreeDevice _ => False
  | EvPrintf _ | EvDeleteArray _ => True
  end.

(** The number of device buffers a tensor holds: one when its handle is
    non-null. *)
Definition live (t : Tensor) : nat :=
  if is_null (m_data t) then 0%nat else 1%nat.

(** Allocations minus frees is the number of buffers held. *)
Definition balanced (t : Tensor) (ev : Trace) : Prop :=
  count is_alloc ev = (count is_free ev + live t)%nat.

(** * Properties *)

(** ** The monad and the trace *)

Lemma bind_Done {A B} (m : M A) (k : A -> M B) tr a tr' :
  m tr = Done a tr' -> bind m k tr = k a tr'.
Proof. intros H. unfold bind. now rewrite H. Qed.

Lemma bind_Fatal {A B} (m : M A) (k : A -> M B) tr msg tr' :
  m tr = Fatal msg tr' -> bind m k tr = Fatal msg tr'.
Proof. intros H. unfold bind. now rewrite H. Qed.

Lemma count_app p (tr1 tr2 : Trace) :
  count p (tr1 ++ tr2) = (count p tr1 + count p tr2)%nat.
Proof. unfold count. now rewrite filter_app, length_app. Qed.

Lemma is_null_true p : is_null p = true <-> p = nullptr.
Proof. unfold is_null. apply Z.eqb_eq. Qed.

Lemma is_null_false p : is_null p = false <-> p <> nullptr.
Proof. unfold is_null. apply Z.eqb_neq. Qed.

Lemma is_OutSide_false s : is_OutSide s = false <-> s <> OutSide.
Proof. destruct s; simpl; split; congruence. Qed.

(** ** The length of a tensor *)

Section Length.
Variable K : KernelDefine.

(** Computing the length touches no collaborator, and its result depends
    on the dtype and the element count alone. *)
Lemma length_in_byte_pure t tr len tr' :
  length_in_byte K t tr = Done len tr' ->
  tr' = tr /\ forall tr2, length_in_byte K t tr2 = Done len tr2.
Proof.
  unfold length_in_byte.
  destruct (m_dtype t); cbv [dtype_in_byte dtype_block_size is_dense bind ret
                             INFER_ASSERT];
    intros H; inversion H; subst; auto.
Qed.

Lemma length_in_byte_any t tr len :
  length_in_byte K t tr = Done len tr ->
  forall tr2, length_in_byte K t tr2 = Done len tr2.
Proof. intros H. apply (length_in_byte_pure _ _ _ _ H). Qed.

Lemma length_in_byte_known t :
  is_known (m_dtype t) = true ->
  exists len, forall tr, length_in_byte K t tr = Done len tr.
Proof.
  unfold length_in_byte.
  destruct (m_dtype t); simpl; intros Hk; try discriminate;
    eexists; intros tr; reflexivity.
Qed.

Lemma length_in_byte_unknown t tr :
  is_known (m_dtype t) = false ->
  length_in_byte K t tr = Fatal "No support data type." tr.
Proof.
  unfold length_in_byte.
  destruct (m_dtype t); simpl; intros Hk; try discriminate; reflexivity.
Qed.

Lemma length_in_byte_congr t u :
  m_dtype u = m_dtype t -> m_length u = m_length t ->
  length_in_byte K u = length_in_byte K t.
Proof. intros Hd Hl. unfold length_in_byte. now rewrite Hd, Hl. Qed.
End Length.

(** ** The paths of [prepare_data], [recall_data] and the destructor *)

Section Paths.
Variable K : KernelDefine.
Variable rt : Runtime.

(** Entry check fails: nothing but the state changes. *)
Lemma prepare_data_noop t tr len :
  length_in_byte K t tr = Done len tr ->
  m_data t <> nullptr \/ m_state t <> OutSide ->
  prepare_data K rt t tr = Done (Own, set_state t Own) tr.
Proof.
  intros Hlen Hc. unfold prepare_data. rewrite (bind_Done _ _ _ _ _ Hlen).
  assert (Hb : is_null (m_data t) && is_OutSide (m_state t) = false).
  { apply andb_false_iff.
    destruct Hc; [left; now apply is_null_false
                 | right; now apply is_OutSide_false]. }
  rewrite Hb. reflexivity.
Qed.

Lemma prepare_data_no_file t tr len :
  length_in_byte K t tr = Done len tr ->
  m_data t = nullptr -> m_state t = OutSide -> m_file t = None ->
  let h := dev_allocate (m_device t) tr len in
  prepare_data K rt t tr
  = Done (Own, set_state (set_data t h) Own) (tr ++ [EvAllocate len h]).
Proof.
  intros Hlen Hd Hs Hf. unfold prepare_data.
  rewrite (bind_Done _ _ _ _ _ Hlen), Hd, Hs, Hf. reflexivity.
Qed.

Lemma prepare_data_mmap_host t tr len file :
  length_in_byte K t tr = Done len tr ->
  m_data t = nullptr -> m_state t = OutSide ->
  m_file t = Some file -> file_enable_mmap file = true ->
  dev_type (m_device t) = HostKernel ->
  let p := file_get_mmap_data file len (m_file_offset t) in
  prepare_data K rt t tr
  = Done (Own, set_state (set_data t p) Own)
         (tr ++ [EvGetMmapData len (m_file_offset t) p]).
Proof.
  intros Hlen Hd Hs Hf Hm Hk. unfold prepare_data.
  rewrite (bind_Done _ _ _ _ _ Hlen), Hd, Hs, Hf, Hm, Hk. reflexivity.
Qed.

Lemma prepare_data_mmap_gpu t tr len file :
  length_in_byte K t tr = Done len tr ->
  m_data t = nullptr -> m_state t = OutSide ->
  m_file t = Some file -> file_enable_mmap file = true ->
  dev_type (m_device t) = GPU ->
  let src := file_get_mmap_data file len (m_file_offset t) in
  let tr1 := tr ++ [EvGetMmapData len (m_file_offset t) src] in
  let h := dev_allocate (m_device t) tr1 len in
  let tr2 := tr1 ++ [EvAllocate len h] in
  let err := rt_cudaMemcpy rt tr2 h src len in
  let tr3 := tr2 ++ [EvCudaMemcpy h src len err] in
  prepare_data K rt t tr
  = Done (Own, set_state (set_data t h) Own)
         (if err =? cudaSuccess then tr3 else tr3 ++ [EvPrintf err]).
Proof.
  intros Hlen Hd Hs Hf Hm Hk. unfold prepare_data.
  rewrite (bind_Done _ _ _ _ _ Hlen), Hd, Hs, Hf, Hm, Hk.
  change (is_null nullptr && is_OutSide OutSide) with true.
  cbv beta iota zeta delta [is_GPU bind get_mmap_data emit ret allocate cudaMemcpy
                       set_data m_data m_device printf_cuda_error].
  destruct (rt_cudaMemcpy rt _ _ _ _ =? cudaSuccess); reflexivity.
Qed.

Lemma prepare_data_read_gpu t tr len file staging :
  length_in_byte K t tr = Done len tr ->
  m_data t = nullptr -> m_state t = OutSide ->
  m_file t = Some file -> file_enable_mmap file = false ->
  dev_type (m_device t) = GPU ->
  let h := dev_allocate (m_device t) tr len in
  let tr1 := tr ++ [EvAllocate len h] in
  len * sizeof_float <= SIZE_MAX ->
  rt_new rt tr1 (len * sizeof_float) = Some staging ->
  let tr2 := tr1 ++ [EvNewArray (len * sizeof_float) staging] in
  let tr3 := tr2 ++ [EvReadData staging len (m_file_offset t)] in
  let err := rt_cudaMemcpy rt tr3 h staging len in
  prepare_data K rt t tr
  = Done (Own, set_state (set_data t h) Own)
         (tr3 ++ [EvCudaMemcpy h staging len err] ++ [EvDeleteArray staging]).
Proof.
  intros Hlen Hd Hs Hf Hm Hk h tr1 Hsz Hnew. unfold prepare_data.
  rewrite (bind_Done _ _ _ _ _ Hlen), Hd, Hs, Hf, Hm, Hk.
  change (is_null nullptr && is_OutSide OutSide) with true.
  change (is_null nullptr) with true.
  apply Z.ltb_ge in Hsz.
  cbv beta iota zeta delta [is_GPU bind read_data emit ret allocate cudaMemcpy
                       set_data m_data m_device new_float_array
                       delete_array m_file_offset].
  rewrite Hsz. unfold tr1, h in Hnew.
  cbv beta iota zeta delta [m_device] in Hnew. rewrite Hnew.
  now rewrite <- app_assoc.
Qed.

(** When [new float[length]] throws, the exception leaves [prepare_data]
    right after the device allocation. *)
Lemma prepare_data_read_gpu_throws t tr len file :
  length_in_byte K t tr = Done len tr ->
  m_data t = nullptr -> m_state t = OutSide ->
  m_file t = Some file -> file_enable_mmap file = false ->
  dev_type (m_device t) = GPU ->
  let h := dev_allocate (m_device t) tr len in
  let tr1 := tr ++ [EvAllocate len h] in
  ~ new_returns rt tr1 len ->
  exists exn, prepare_data K rt t tr = Thrown exn tr1.
Proof.
  intros Hlen Hd Hs Hf Hm Hk h tr1 Hno. unfold prepare_data.
  rewrite (bind_Done _ _ _ _ _ Hlen), Hd, Hs, Hf, Hm, Hk.
  change (is_null nullptr && is_OutSide OutSide) with true.
  change (is_null nullptr) with true.
  cbv beta iota zeta delta [is_GPU bind read_data emit ret allocate cudaMemcpy
                       set_data m_data m_device new_float_array
                       delete_array m_file_offset].
  destruct (SIZE_MAX <? len * sizeof_float) eqn:Hsz; [now eexists|].
  match goal with
  | |- context [rt_new rt ?x ?n] => destruct (rt_new rt x n) as [p|] eqn:Hnew
  end; [|now eexists].
  elim Hno. apply Z.ltb_ge in Hsz. split; [exact Hsz|].
  unfold tr1, h. cbv beta iota zeta delta [m_device]. now rewrite Hnew.
Qed.

Lemma new_returns_dec tr1 len :
  new_returns rt tr1 len \/ ~ new_returns rt tr1 len.
Proof.
  unfold new_returns.
  destruct (Z_le_gt_dec (len * sizeof_float) SIZE_MAX) as [Hsz|Hsz];
    [|right; intros [H _]; lia].
  destruct (rt_new rt tr1 (len * sizeof_float)) as [p|];
    [left; split; [exact Hsz | discriminate] | right; intros [_ H]; now apply H].
Qed.

Lemma on_staging_path_true t file :
  m_data t = nullptr -> m_state t = OutSide ->
  m_file t = Some file -> file_enable_mmap file = false ->
  dev_type (m_device t) = GPU -> on_staging_path t = true.
Proof.
  intros Hd Hs Hf Hm Hk. unfold on_staging_path.
  now rewrite Hd, Hs, Hf, Hm, Hk.
Qed.

Lemma prepare_data_read_host t tr len file :
  length_in_byte K t tr = Done len tr ->
  m_data t = nullptr -> m_state t = OutSide ->
  m_file t = Some file -> file_enable_mmap file = false ->
  dev_type (m_device t) = HostKernel ->
  let h := dev_allocate (m_device t) tr len in
  prepare_data K rt t tr
  = Done (Own, set_state (set_data t h) Own)
         ((tr ++ [EvAllocate len h]) ++ [EvReadData h len (m_file_offset t)]).
Proof.
  intros Hlen Hd Hs Hf Hm Hk. unfold prepare_data.
  rewrite (bind_Done _ _ _ _ _ Hlen), Hd, Hs, Hf, Hm, Hk. reflexivity.
Qed.

Lemma recall_data_shared t tr :
  m_shared t = true -> recall_data t tr = Done (m_state t, t) tr.
Proof. intros Hs. unfold recall_data. now rewrite Hs. Qed.

(** A tensor with a file keeps its handle across [recall_data]. *)
Lemma recall_data_file t tr file :
  m_shared t = false -> m_file t = Some file ->
  recall_data t tr = Done (OutSide, set_state t OutSide) tr.
Proof. intros Hs Hf. unfold recall_data. now rewrite Hs, Hf. Qed.

Lemma recall_data_no_file t tr :
  m_shared t = false -> m_file t = None ->
  recall_data t tr
  = if negb (is_null (m_data t)) && is_Own (m_state t)
    then Done (OutSide, set_state (set_data t nullptr) OutSide)
              (tr ++ [EvFreeDevice (m_data t)])
    else Done (OutSide, set_state t OutSide) tr.
Proof.
  intros Hs Hf. unfold recall_data. rewrite Hs, Hf. simpl.
  destruct (negb (is_null (m_data t)) && is_Own (m_state t)); reflexivity.
Qed.
End Paths.

(** ** The dtype format table *)

(** C9, the claim as stated fails: with the block constants of the
    engine, the 4-bit block dtype has byte size 20 and block count 32; one
    block is 20 bytes, and the product of the two numbers is 640. *)
Lemma dtype_product_counterexample :
  dtype_in_byte inferllm_kernel_define Int4 [] = Done 20 [] /\
  dtype_block_size inferllm_kernel_define Int4 [] = Done 32 [] /\
  one_block_bytes inferllm_kernel_define Int4 = 20 /\
  20 * 32 <> one_block_bytes inferllm_kernel_define Int4.
Proof. repeat split; try reflexivity. discriminate. Qed.

(** Whatever the constants are, a quantised block of more than one
    element and of positive size is smaller than byte size times block
    count. *)
Lemma quantised_product_exceeds_block (K : KernelDefine) (tr : Trace) :
  0 < sizeof_BlockQ40 K -> 1 < QK40 K ->
  exists byte_size block_count,
    dtype_in_byte K Int4 tr = Done byte_size tr /\
    dtype_block_size K Int4 tr = Done block_count tr /\
    one_block_bytes K Int4 < byte_size * block_count.
Proof.
  intros Hs Hq. exists (sizeof_BlockQ40 K), (QK40 K).
  split; [reflexivity|]. split; [reflexivity|].
  cbn [one_block_bytes]. nia.
Qed.

(** C9, amended: for every dtype of the legal range, [dtype_in_byte] alone
    is the byte size of exactly one block and [dtype_block_size] is the
    number of elements of that block: 1 for every dense dtype (where the
    product of the two is then one block's byte size as well), [QK80] and
    [QK40] for the two quantised dtypes; on any other value both functions
    stop in the fatal assertion. *)
Theorem dtype_table_contract (K : KernelDefine) (d : DType) (tr : Trace) :
  is_known d = true ->
  (exists byte_size block_count,
      dtype_in_byte K d tr = Done byte_size tr /\
      dtype_block_size K d tr = Done block_count tr /\
      byte_size = one_block_bytes K d /\
      (is_dense d = true ->
       block_count = 1 /\ byte_size * block_count = one_block_bytes K d) /\
      (d = Int8 -> block_count = QK80 K) /\
      (d = Int4 -> block_count = QK40 K)) /\
  (forall raw,
      dtype_in_byte K (OtherDType raw) tr = Fatal "No support data type." tr /\
      dtype_block_size K (OtherDType raw) tr
      = Fatal "No support data type." tr).
Proof.
  intros Hk. split.
  - destruct d; try discriminate Hk;
      do 2 eexists; (split; [reflexivity|]); (split; [reflexivity|]);
      (split; [reflexivity|]); repeat split;
      solve [reflexivity | discriminate | congruence].
  - intros raw. split; reflexivity.
Qed.

Lemma dtype_table_contract_witness :
  is_known Int4 = true /\
  (exists byte_size block_count,
      dtype_in_byte inferllm_kernel_define Int4 [] = Done byte_size [] /\
      dtype_block_size inferllm_kernel_define Int4 [] = Done block_count [] /\
      byte_size = 20 /\ block_count = 32).
Proof.
  split; [reflexivity|].
  destruct (dtype_table_contract inferllm_kernel_define Int4 [] eq_refl)
    as [(bs & bc & Hb & Hc & Hone & _ & _ & H4) _].
  exists bs, bc. repeat split; try assumption.
  now apply H4.
Defined.

(** ** Binding external memory *)

Section Binding.
Variable K : KernelDefine.

Lemma set_shared_memory_ok t data size tr len :
  length_in_byte K t tr = Done len tr ->
  data = nullptr \/ len <= size ->
  set_shared_memory K t data size tr = Done (bound t data) tr.
Proof.
  intros Hlen Hc. unfold set_shared_memory.
  destruct (is_null data) eqn:Hn.
  - reflexivity.
  - destruct Hc as [Hc|Hc]; [apply is_null_false in Hn; contradiction|].
    apply Z.leb_le in Hc. unfold bind. rewrite Hlen. unfold ret.
    rewrite Hc. reflexivity.
Qed.

Lemma set_shared_memory_fatal t data size tr len :
  length_in_byte K t tr = Done len tr ->
  data <> nullptr -> size < len ->
  set_shared_memory K t data size tr
  = Fatal "the memory set to tensor is not enough" tr.
Proof.
  intros Hlen Hn Hc. unfold set_shared_memory.
  apply is_null_false in Hn. rewrite Hn.
  apply Z.leb_gt in Hc. unfold bind. rewrite Hlen. unfold ret.
  rewrite Hc. reflexivity.
Qed.

Lemma set_shared_memory_null t size tr :
  set_shared_memory K t nullptr size tr = Done (bound t nullptr) tr.
Proof. reflexivity. Qed.

Lemma length_Float32 t tr len :
  length_in_byte K t tr = Done len tr ->
  m_dtype t = Float32 -> len = m_length t * 4.
Proof.
  unfold length_in_byte. intros H Hd. rewrite Hd in H.
  cbv [dtype_in_byte dtype_block_size is_dense bind ret] in H.
  now inversion H.
Qed.
End Binding.

(** C5: when the tensor's length is [len], [set_shared_memory data size]
    stops in the fatal assertion if and only if [data] is non-null and
    [size < len]; otherwise it returns with [m_data = data],
    [m_state = Own] and [m_shared = true].  For a Float32 tensor of 10
    elements the length is 40: binding a buffer with size 40 succeeds,
    with size 39 it is fatal. *)
Theorem set_shared_memory_contract
    (K : KernelDefine) (t : Tensor) (data : ptr) (size : Z) (tr : Trace)
    (len : Z) :
  length_in_byte K t tr = Done len tr ->
  ((exists msg tr', set_shared_memory K t data size tr = Fatal msg tr')
   <-> (data <> nullptr /\ size < len)) /\
  (~ (data <> nullptr /\ size < len) ->
   exists t', set_shared_memory K t data size tr = Done t' tr /\
              m_data t' = data /\ m_state t' = Own /\ m_shared t' = true) /\
  (m_dtype t = Float32 -> m_length t = 10 -> data <> nullptr ->
   len = 40 /\
   (exists t', set_shared_memory K t data 40 tr = Done t' tr) /\
   set_shared_memory K t data 39 tr
   = Fatal "the memory set to tensor is not enough" tr).
Proof.
  intros Hlen.
  assert (Hdec : (data <> nullptr /\ size < len) \/ (data = nullptr \/ len <= size)).
  { destruct (Z.eq_dec data nullptr); [right; now left|].
    destruct (Z_lt_le_dec size len); [left; now split|right; now right]. }
  split; [|split].
  - split.
    + intros (msg & tr' & Hf).
      destruct Hdec as [Hd|Hd]; [exact Hd|].
      rewrite (set_shared_memory_ok K _ _ _ _ _ Hlen Hd) in Hf. discriminate.
    + intros [Hn Hlt]. do 2 eexists.
      exact (set_shared_memory_fatal K _ _ _ _ _ Hlen Hn Hlt).
  - intros Hno. destruct Hdec as [Hd|Hd]; [contradiction|].
    exists (bound t data). split; [now apply set_shared_memory_ok with len|].
    repeat split.
  - intros Hd Hl Hn.
    pose proof (length_Float32 K _ _ _ Hlen Hd) as E. rewrite Hl in E.
    change (10 * 4) with 40 in E. subst len.
    split; [reflexivity|]. split.
    + exists (bound t data). apply set_shared_memory_ok with 40; [assumption|].
      right. lia.
    + apply set_shared_memory_fatal with 40; [assumption|assumption|lia].
Qed.

Lemma set_shared_memory_contract_witness :
  length_in_byte inferllm_kernel_define float_tensor [] = Done 40 [] /\
  (exists t', set_shared_memory inferllm_kernel_define float_tensor 777 40 []
              = Done t' []) /\
  set_shared_memory inferllm_kernel_define float_tensor 777 39 []
  = Fatal "the memory set to tensor is not enough" [].
Proof.
  assert (Hlen : length_in_byte inferllm_kernel_define float_tensor []
                 = Done 40 []) by reflexivity.
  split; [exact Hlen|].
  destruct (set_shared_memory_contract
              inferllm_kernel_define float_tensor 777 40 [] 40 Hlen)
    as (_ & _ & Hsc).
  destruct Hsc as (_ & Hok & Hbad); [reflexivity | reflexivity | discriminate |].
  split; assumption.
Defined.

(** ** Materialisation *)

Section Materialize.
Variable K : KernelDefine.
Variable rt : Runtime.

(** [prepare_data] either returns [Own], having changed at most the
    handle and freed nothing, or is left by the exception of
    [new float[length]], right after the device allocation of the staging
    path. *)
Lemma prepare_data_cases t tr len :
  length_in_byte K t tr = Done len tr ->
  (exists p ev,
      prepare_data K rt t tr
      = Done (Own, set_state (set_data t p) Own) (tr ++ ev) /\
      count is_free ev = 0%nat /\
      Forall (event_fits len (m_file_offset t)) ev /\
      (count is_alloc ev <= 1)%nat) \/
  (on_staging_path t = true /\
   ~ new_returns rt
       (tr ++ [EvAllocate len (dev_allocate (m_device t) tr len)]) len /\
   exists exn,
     prepare_data K rt t tr
     = Thrown exn (tr ++ [EvAllocate len (dev_allocate (m_device t) tr len)])).
Proof.
  intros Hlen.
  destruct (Z.eq_dec (m_data t) nullptr) as [Hd|Hd].
  2:{ left. exists (m_data t), []. rewrite app_nil_r.
      split; [|split; [reflexivity | split; [constructor | cbn; lia]]].
      rewrite (prepare_data_noop K rt t tr len Hlen (or_introl Hd)).
      reflexivity. }
  destruct (m_state t) eqn:Hs.
  { left. exists (m_data t), []. rewrite app_nil_r.
    split; [|split; [reflexivity | split; [constructor | cbn; lia]]].
    rewrite (prepare_data_noop K rt t tr len Hlen); [reflexivity|].
    right. congruence. }
  destruct (m_file t) as [file|] eqn:Hf.
  2:{ left. rewrite (prepare_data_no_file K rt t tr len Hlen Hd Hs Hf).
      do 2 eexists. split; [reflexivity|].
      split; [reflexivity | split; [now repeat constructor | cbn; lia]]. }
  destruct (file_enable_mmap file) eqn:Hm;
    destruct (dev_type (m_device t)) eqn:Hk.
  - left.
    rewrite (prepare_data_mmap_gpu K rt t tr len file Hlen Hd Hs Hf Hm Hk).
    destruct (_ =? cudaSuccess); rewrite <- !app_assoc;
      do 2 eexists; (split; [reflexivity|]);
      (split; [reflexivity | split; [now repeat constructor | cbn; lia]]).
  - left.
    rewrite (prepare_data_mmap_host K rt t tr len file Hlen Hd Hs Hf Hm Hk).
    do 2 eexists. split; [reflexivity|].
    split; [reflexivity | split; [now repeat constructor | cbn; lia]].
  - destruct (new_returns_dec rt
                (tr ++ [EvAllocate len (dev_allocate (m_device t) tr len)]) len)
      as [[Hsz Hnew]|Hno].
    + left.
      destruct (rt_new rt _ (len * sizeof_float)) as [staging|] eqn:Hst;
        [|now elim Hnew].
      rewrite (prepare_data_read_gpu K rt t tr len file staging
                 Hlen Hd Hs Hf Hm Hk Hsz Hst).
      rewrite <- !app_assoc. do 2 eexists. split; [reflexivity|].
      split; [reflexivity | split; [now repeat constructor | cbn; lia]].
    + right. split; [now apply on_staging_path_true with file|].
      split; [exact Hno|].
      now apply prepare_data_read_gpu_throws with file.
  - left.
    rewrite (prepare_data_read_host K rt t tr len file Hlen Hd Hs Hf Hm Hk).
    rewrite <- !app_assoc. do 2 eexists. split; [reflexivity|].
    split; [reflexivity | split; [now repeat constructor | cbn; lia]].
Qed.

(** When the staging array, if one is needed, is provided, [prepare_data]
    returns [Own], changes at most the handle, and frees nothing. *)
Lemma prepare_data_total t tr len :
  length_in_byte K t tr = Done len tr ->
  staging_returns rt t tr len ->
  exists p ev,
    prepare_data K rt t tr
    = Done (Own, set_state (set_data t p) Own) (tr ++ ev) /\
    count is_free ev = 0%nat.
Proof.
  intros Hlen Hst.
  destruct (prepare_data_cases t tr len Hlen)
    as [(p & ev & H & Hfr & _) | (Hon & Hno & _)].
  - now exists p, ev.
  - elim Hno. now apply Hst.
Qed.

(** Every call of [prepare_data] that returns has returned [Own], changed
    at most the handle, and freed nothing. *)
Lemma prepare_data_returns t tr len s t1 tr1 :
  length_in_byte K t tr = Done len tr ->
  prepare_data K rt t tr = Done (s, t1) tr1 ->
  exists p ev,
    s = Own /\ t1 = set_state (set_data t p) Own /\ tr1 = tr ++ ev /\
    count is_free ev = 0%nat /\
    Forall (event_fits len (m_file_offset t)) ev /\
    (count is_alloc ev <= 1)%nat.
Proof.
  intros Hlen Hret.
  destruct (prepare_data_cases t tr len Hlen)
    as [(p & ev & H & Hfr & Hfit & Ha) | (_ & _ & exn & H)];
    rewrite H in Hret; [|discriminate].
  inversion Hret; subst. now exists p, ev.
Qed.

(** After a [prepare_data] that returned, the entry check fails, so a
    second call changes nothing at all. *)
Lemma prepare_data_twice t tr len s t1 tr1 :
  length_in_byte K t tr = Done len tr ->
  prepare_data K rt t tr = Done (s, t1) tr1 ->
  s = Own /\ prepare_data K rt t1 tr1 = Done (Own, t1) tr1.
Proof.
  intros Hlen Hret.
  destruct (prepare_data_returns t tr len s t1 tr1 Hlen Hret)
    as (p & ev & -> & -> & -> & _).
  split; [reflexivity|].
  apply (prepare_data_noop K rt (set_state (set_data t p) Own) (tr ++ ev) len).
  - rewrite (length_in_byte_congr K t (set_state (set_data t p) Own))
      by reflexivity.
    now apply length_in_byte_any with tr.
  - right. discriminate.
Qed.

(** A tensor without a file needs no staging array. *)
Lemma no_file_staging_returns t tr len :
  m_file t = None -> staging_returns rt t tr len.
Proof.
  intros Hf Hon. unfold on_staging_path in Hon. rewrite Hf in Hon.
  rewrite andb_false_r in Hon. discriminate.
Qed.
End Materialize.

(** C3: [prepare_data] is idempotent.  When [m_data] is already non-null or
    [m_state] is already not [OutSide], the call adds no event to the
    trace (no allocation, no file read, no copy) and leaves the handle as it
    was.  After a first call that returned, a second call right after it
    returns the same tensor, with the same handle, on an unchanged trace.
    The first call returns whenever the staging array, if the tensor
    needs one, is provided. *)
Theorem prepare_data_idempotent
    (K : KernelDefine) (rt : Runtime) (t : Tensor) (tr : Trace) (len : Z) :
  length_in_byte K t tr = Done len tr ->
  (m_data t <> nullptr \/ m_state t <> OutSide ->
   exists t1, prepare_data K rt t tr = Done (Own, t1) tr /\
              m_data t1 = m_data t) /\
  (forall s t1 tr1,
      prepare_data K rt t tr = Done (s, t1) tr1 ->
      s = Own /\ prepare_data K rt t1 tr1 = Done (Own, t1) tr1) /\
  (staging_returns rt t tr len ->
   exists t1 tr1,
     prepare_data K rt t tr = Done (Own, t1) tr1 /\
     prepare_data K rt t1 tr1 = Done (Own, t1) tr1).
Proof.
  intros Hlen. split; [|split].
  - intros Hc. exists (set_state t Own). split; [|reflexivity].
    now apply prepare_data_noop with len.
  - intros s t1 tr1. now apply prepare_data_twice with len.
  - intros Hst.
    destruct (prepare_data_total K rt t tr len Hlen Hst) as (p & ev & H & _).
    exists (set_state (set_data t p) Own), (tr ++ ev). split; [exact H|].
    now apply (prepare_data_twice K rt t tr len Own).
Qed.

Lemma prepare_data_idempotent_witness :
  length_in_byte inferllm_kernel_define materialized_tensor [] = Done 40 [] /\
  (m_data materialized_tensor <> nullptr \/
   m_state materialized_tensor <> OutSide) /\
  (exists t1,
      prepare_data inferllm_kernel_define good_runtime materialized_tensor []
      = Done (Own, t1) [] /\
      m_data t1 = 4096) /\
  staging_returns good_runtime staged_gpu_weight [] 40 /\
  (exists t1 tr1,
      prepare_data inferllm_kernel_define good_runtime staged_gpu_weight []
      = Done (Own, t1) tr1 /\
      prepare_data inferllm_kernel_define good_runtime t1 tr1
      = Done (Own, t1) tr1).
Proof.
  split; [reflexivity|].
  assert (Hc : m_data materialized_tensor <> nullptr \/
               m_state materialized_tensor <> OutSide)
    by (left; discriminate).
  split; [exact Hc|]. split.
  - exact (proj1 (prepare_data_idempotent inferllm_kernel_define good_runtime
                    materialized_tensor [] 40 eq_refl) Hc).
  - assert (Hst : staging_returns good_runtime staged_gpu_weight [] 40).
    { intros _. split; [discriminate | discriminate]. }
    split; [exact Hst|].
    exact (proj2 (proj2 (prepare_data_idempotent inferllm_kernel_define
                           good_runtime staged_gpu_weight [] 40 eq_refl)) Hst).
Defined.




(** ** Release and the round trip *)

(** C6: on a tensor that is not shared, has no file and is not yet
    materialised, with an allocator that returns a non-null handle [h1],
    [prepare_data; recall_data; prepare_data] adds exactly the events
    allocate([h1]), free([h1]), allocate([h2]) to the trace: two
    allocations and one free, the free between them.  The handle is null
    after [recall_data] and is the newly allocated [h2] at the end.  On
    every tensor that is not shared and has no file, [recall_data] frees
    [m_data] and nulls it exactly when [m_data] is non-null and the state
    is [Own], and otherwise only sets the state. *)
Theorem materialize_release_roundtrip
    (K : KernelDefine) (rt : Runtime) (t : Tensor) (tr : Trace) (len : Z) :
  m_shared t = false -> m_file t = None ->
  length_in_byte K t tr = Done len tr ->
  (m_data t = nullptr -> m_state t = OutSide ->
   let h1 := dev_allocate (m_device t) tr len in
   let h2 := dev_allocate (m_device t)
               (tr ++ [EvAllocate len h1; EvFreeDevice h1]) len in
   let ev := [EvAllocate len h1; EvFreeDevice h1; EvAllocate len h2] in
   h1 <> nullptr ->
   exists t1 t2 t3,
     prepare_data K rt t tr = Done (Own, t1) (tr ++ [EvAllocate len h1]) /\
     m_data t1 = h1 /\
     recall_data t1 (tr ++ [EvAllocate len h1])
     = Done (OutSide, t2) (tr ++ [EvAllocate len h1; EvFreeDevice h1]) /\
     m_data t2 = nullptr /\
     prepare_data K rt t2 (tr ++ [EvAllocate len h1; EvFreeDevice h1])
     = Done (Own, t3) (tr ++ ev) /\
     m_data t3 = h2 /\
     run K rt [Materialize; Release; Materialize] t tr = Done t3 (tr ++ ev) /\
     count is_alloc ev = 2%nat /\ count is_free ev = 1%nat /\
     count (is_free_of h1) ev = 1%nat) /\
  recall_data t tr
  = (if negb (is_null (m_data t)) && is_Own (m_state t)
     then Done (OutSide, set_state (set_data t nullptr) OutSide)
               (tr ++ [EvFreeDevice (m_data t)])
     else Done (OutSide, set_state t OutSide) tr).
Proof.
  intros Hsh Hf Hlen. split; [|now apply recall_data_no_file].
  intros Hd Hs h1 h2 ev Hh1.
  set (t1 := set_state (set_data t h1) Own).
  set (t2 := set_state (set_data t1 nullptr) OutSide).
  set (t3 := set_state (set_data t2 h2) Own).
  assert (P1 : prepare_data K rt t tr = Done (Own, t1) (tr ++ [EvAllocate len h1]))
    by (now apply prepare_data_no_file).
  assert (P2 : recall_data t1 (tr ++ [EvAllocate len h1])
               = Done (OutSide, t2) (tr ++ [EvAllocate len h1; EvFreeDevice h1])).
  { rewrite recall_data_no_file by assumption.
    change (m_data t1) with h1. change (is_Own (m_state t1)) with true.
    apply is_null_false in Hh1. rewrite Hh1. simpl.
    now rewrite <- app_assoc. }
  assert (P3 : prepare_data K rt t2 (tr ++ [EvAllocate len h1; EvFreeDevice h1])
               = Done (Own, t3) (tr ++ ev)).
  { rewrite (prepare_data_no_file K rt t2 _ len); try reflexivity.
    - change (dev_allocate (m_device t2)) with (dev_allocate (m_device t)).
      fold h2. unfold ev. now rewrite <- app_assoc.
    - rewrite (length_in_byte_congr K t t2) by reflexivity.
      now apply length_in_byte_any with tr.
    - exact Hf. }
  exists t1, t2, t3. repeat split; try assumption.
  - cbn [run step]. rewrite (bind_Done _ _ _ _ _ P1). cbn [snd].
    rewrite (bind_Done _ _ _ _ _ P2). cbn [snd].
    rewrite (bind_Done _ _ _ _ _ P3). reflexivity.
  - unfold ev, count. cbn [filter is_free_of List.length].
    rewrite Z.eqb_refl. reflexivity.
Qed.

Lemma materialize_release_roundtrip_witness :
  length_in_byte inferllm_kernel_define activation_tensor [] = Done 80 [] /\
  exists t3,
    run inferllm_kernel_define good_runtime
      [Materialize; Release; Materialize] activation_tensor []
    = Done t3 [EvAllocate 80 4096; EvFreeDevice 4096; EvAllocate 80 4352] /\
    m_data t3 = 4352.
Proof.
  split; [reflexivity|].
  destruct (materialize_release_roundtrip
              inferllm_kernel_define good_runtime activation_tensor [] 80
              eq_refl eq_refl eq_refl) as [H _].
  destruct H as (t1 & t2 & t3 & _ & _ & _ & _ & _ & Hd & Hrun & _);
    [reflexivity | reflexivity | discriminate |].
  exists t3. split; [exact Hrun | exact Hd].
Defined.

(** ** A null binding *)

Section NullBinding.
Variable K : KernelDefine.
Variable rt : Runtime.

(** On a shared tensor in state [Own] neither operation does anything. *)
Lemma step_bound t p o tr len :
  length_in_byte K t tr = Done len tr ->
  step K rt o (bound t p) tr = Done (Own, bound t p) tr.
Proof.
  intros Hlen. destruct o; cbn [step].
  - rewrite (prepare_data_noop K rt (bound t p) tr len); [reflexivity| |].
    + now rewrite (length_in_byte_congr K t (bound t p)) by reflexivity.
    + right. discriminate.
  - now rewrite recall_data_shared.
Qed.

Lemma run_bound t p ops tr len :
  length_in_byte K t tr = Done len tr ->
  run K rt ops (bound t p) tr = Done (bound t p) tr.
Proof.
  intros Hlen. induction ops as [|o ops IH]; cbn [run]; [reflexivity|].
  rewrite (bind_Done _ _ _ _ _ (step_bound t p o tr len Hlen)). exact IH.
Qed.
End NullBinding.

(** C10: [set_shared_memory(nullptr, size)] succeeds for every size and
    leaves [m_data] null, [m_state = Own] and [m_shared = true].  From
    then on every [prepare_data], also after any sequence of
    [prepare_data] and [recall_data] calls, returns [Own] on an unchanged
    trace (no allocation) and leaves the tensor as it is, [m_data] still
    null. *)
Theorem null_binding_blocks_materialize
    (K : KernelDefine) (rt : Runtime) (t : Tensor) (size : Z) (tr : Trace)
    (len : Z) :
  length_in_byte K t tr = Done len tr ->
  exists t0,
    set_shared_memory K t nullptr size tr = Done t0 tr /\
    m_data t0 = nullptr /\ m_state t0 = Own /\ m_shared t0 = true /\
    (forall tr2, prepare_data K rt t0 tr2 = Done (Own, t0) tr2) /\
    (forall ops tr2,
        (r <- run K rt ops t0 ;; prepare_data K rt r) tr2
        = Done (Own, t0) tr2).
Proof.
  intros Hlen. exists (bound t nullptr).
  split; [apply set_shared_memory_null|]. repeat split.
  - intros tr2.
    apply (step_bound K rt t nullptr Materialize tr2 len).
    now apply length_in_byte_any with tr.
  - intros ops tr2.
    assert (Hlen2 : length_in_byte K t tr2 = Done len tr2)
      by (now apply length_in_byte_any with tr).
    rewrite (bind_Done _ _ _ _ _ (run_bound K rt t nullptr ops tr2 len Hlen2)).
    exact (step_bound K rt t nullptr Materialize tr2 len Hlen2).
Qed.

Lemma null_binding_blocks_materialize_witness :
  exists t0,
    set_shared_memory inferllm_kernel_define float_tensor nullptr 0 []
    = Done t0 [] /\
    m_data t0 = nullptr /\
    (r <- run inferllm_kernel_define good_runtime
            [Materialize; Release; Materialize] t0 ;;
     prepare_data inferllm_kernel_define good_runtime r) []
    = Done (Own, t0) [].
Proof.
  destruct (null_binding_blocks_materialize
              inferllm_kernel_define good_runtime float_tensor 0 [] 40 eq_refl)
    as (t0 & Hb & Hd & _ & _ & _ & Hrun).
  exists t0. repeat split; [exact Hb | exact Hd | apply Hrun].
Defined.

(** ** The invariant [OutSide] implies null *)

Section Invariant.
Variable K : KernelDefine.
Variable rt : Runtime.

Ltac owned_fields :=
  cbn [set_state set_data m_shared m_file m_state m_data m_dtype m_length];
  auto; try discriminate.

Lemma step_self_owned o t tr len :
  self_owned t -> length_in_byte K t tr = Done len tr ->
  exists s t' tr',
    step K rt o t tr = Done (s, t') tr' /\ self_owned t' /\
    m_dtype t' = m_dtype t /\ m_length t' = m_length t.
Proof.
  intros (Hsh & Hf & Hinv) Hlen. destruct o; cbn [step].
  - destruct (prepare_data_total K rt t tr len Hlen
                (no_file_staging_returns rt t tr len Hf)) as (p & ev & H & _).
    exists Own, (set_state (set_data t p) Own), (tr ++ ev).
    split; [exact H|]. repeat split; owned_fields.
  - rewrite recall_data_no_file by assumption.
    destruct (is_null (m_data t)) eqn:Hn; cbn [negb andb].
    + apply is_null_true in Hn.
      exists OutSide, (set_state t OutSide), tr. repeat split; owned_fields.
    + destruct (m_state t) eqn:Hs; cbn [is_Own].
      * exists OutSide, (set_state (set_data t nullptr) OutSide),
          (tr ++ [EvFreeDevice (m_data t)]). repeat split; owned_fields.
      * apply is_null_false in Hn. now elim Hn; apply Hinv.
Qed.

Lemma run_self_owned ops : forall t tr len,
  self_owned t -> length_in_byte K t tr = Done len tr ->
  exists t' tr', run K rt ops t tr = Done t' tr' /\ self_owned t'.
Proof.
  induction ops as [|o ops IH]; intros t tr len Hown Hlen; cbn [run].
  - now exists t, tr.
  - destruct (step_self_owned o t tr len Hown Hlen)
      as (s & t1 & tr1 & Hstep & Hown1 & Hd & Hl).
    rewrite (bind_Done _ _ _ _ _ Hstep). cbn [snd].
    apply (IH t1 tr1 len Hown1).
    rewrite (length_in_byte_congr K t t1) by assumption.
    now apply length_in_byte_any with tr.
Qed.
End Invariant.

(** C2, the claim as stated fails: a weights tensor on a host device
    whose file is mapped is not shared; after [prepare_data] and
    [recall_data] its state is [OutSide] and its handle is still the
    mapped pointer. *)
Lemma outside_not_null_counterexample :
  exists t' tr',
    run inferllm_kernel_define good_runtime [Materialize; Release]
        mapped_host_weight [] = Done t' tr' /\
    m_shared t' = false /\ m_state t' = OutSide /\
    m_data t' = 1000064 /\ m_data t' <> nullptr.
Proof.
  do 2 eexists. split; [reflexivity|]. repeat split. discriminate.
Qed.

(** C2, amended: for every tensor that is not shared and has no file, if
    [m_state = OutSide] implies [m_data = nullptr] to begin with (as on a
    new tensor), then every sequence of [prepare_data] and [recall_data]
    returns and the implication holds afterwards.  On a tensor that is not
    shared and has a file, [recall_data] sets the state to [OutSide] and
    leaves [m_data] as it was. *)
Theorem outside_implies_null
    (K : KernelDefine) (rt : Runtime) (t : Tensor) (tr : Trace) (len : Z) :
  m_shared t = false ->
  length_in_byte K t tr = Done len tr ->
  (m_file t = None ->
   (m_state t = OutSide -> m_data t = nullptr) ->
   forall ops,
   exists t' tr',
     run K rt ops t tr = Done t' tr' /\
     m_shared t' = false /\
     (m_state t' = OutSide -> m_data t' = nullptr)) /\
  (forall file,
      m_file t = Some file ->
      exists t',
        recall_data t tr = Done (OutSide, t') tr /\
        m_state t' = OutSide /\ m_data t' = m_data t).
Proof.
  intros Hsh Hlen. split.
  - intros Hf Hinv ops.
    destruct (run_self_owned K rt ops t tr len) as (t' & tr' & Hrun & Hown);
      [now repeat split | assumption |].
    exists t', tr'. destruct Hown as (Hsh' & _ & Hinv'). now repeat split.
  - intros file Hf. exists (set_state t OutSide).
    split; [now apply recall_data_file with file|]. now split.
Qed.

Lemma outside_implies_null_witness :
  (exists t' tr',
      run inferllm_kernel_define good_runtime
          [Materialize; Release; Materialize; Release] activation_tensor []
      = Done t' tr' /\
      m_shared t' = false /\
      (m_state t' = OutSide -> m_data t' = nullptr)) /\
  (exists t',
      recall_data (set_state (set_data mapped_host_weight 1000064) Own) []
      = Done (OutSide, t') [] /\
      m_state t' = OutSide /\ m_data t' = 1000064).
Proof.
  split.
  - apply (proj1 (outside_implies_null inferllm_kernel_define good_runtime
                    activation_tensor [] 80 eq_refl eq_refl));
      [reflexivity | intros _; reflexivity].
  - apply (proj2 (outside_implies_null inferllm_kernel_define good_runtime
                    (set_state (set_data mapped_host_weight 1000064) Own)
                    [] 40 eq_refl eq_refl) mmap_file).
    reflexivity.
Defined.

(** ** Destruction *)

Section Destruction.
Variable K : KernelDefine.
Variable rt : Runtime.

Lemma same_buffer_refl t : same_buffer t t.
Proof. now repeat split. Qed.

Lemma same_buffer_set_state t t' s :
  same_buffer t t' -> same_buffer t (set_state t' s).
Proof. intros H. exact H. Qed.

(** A materialised tensor on a file keeps its handle through every
    [prepare_data] and [recall_data], and neither adds an event. *)
Lemma step_file_buffer o t tr len file :
  m_shared t = false -> m_file t = Some file -> m_data t <> nullptr ->
  length_in_byte K t tr = Done len tr ->
  exists s, step K rt o t tr = Done (s, set_state t s) tr.
Proof.
  intros Hsh Hf Hd Hlen. destruct o; cbn [step].
  - exists Own. apply prepare_data_noop with len; auto.
  - exists OutSide. now apply recall_data_file with file.
Qed.

Lemma run_file_buffer ops : forall t tr len file,
  m_shared t = false -> m_file t = Some file -> m_data t <> nullptr ->
  length_in_byte K t tr = Done len tr ->
  exists t', run K rt ops t tr = Done t' tr /\ same_buffer t t'.
Proof.
  induction ops as [|o ops IH]; intros t tr len file Hsh Hf Hd Hlen;
    cbn [run].
  - exists t. split; [reflexivity | apply same_buffer_refl].
  - destruct (step_file_buffer o t tr len file Hsh Hf Hd Hlen) as (s & Hs).
    rewrite (bind_Done _ _ _ _ _ Hs). cbn [snd].
    destruct (IH (set_state t s) tr len file Hsh Hf Hd) as (t' & Hrun & Hsame).
    + now rewrite (length_in_byte_congr K t (set_state t s)) by reflexivity.
    + exists t'. split; [exact Hrun | exact Hsame].
Qed.

(** The destructor of a tensor whose file is mapped frees nothing. *)
Lemma destroy_mapped t tr file :
  m_shared t = false -> m_file t = Some file ->
  file_enable_mmap file = true ->
  exists t', destroy t tr = Done t' tr /\ m_data t' = m_data t.
Proof.
  intros Hsh Hf Hm. unfold destroy.
  destruct (m_state t) eqn:Hs; cbn [is_Own].
  - unfold bind. rewrite (recall_data_file t tr file Hsh Hf).
    cbn [snd ret]. change (m_file (set_state t OutSide)) with (m_file t).
    rewrite Hf, Hm. cbn [negb andb]. now eexists.
  - unfold bind, ret. rewrite Hf, Hm. cbn [negb andb]. now eexists.
Qed.

(** [recall_data] on a shared tensor adds no event, and the destructor of
    a shared tensor adds none either unless the tensor has a file that is
    not mapped. *)
Lemma destroy_shared t tr :
  m_shared t = true ->
  destroy t tr
  = match m_file t with
    | Some file =>
        if negb (file_enable_mmap file) && negb (is_null (m_data t))
        then Done t (tr ++ [EvFreeDevice (m_data t)])
        else Done t tr
    | None => Done t tr
    end.
Proof.
  intros Hsh. unfold destroy.
  assert (E : (if is_Own (m_state t)
               then r <- recall_data t ;; ret (snd r)
               else ret t) tr = Done t tr).
  { destruct (is_Own (m_state t)); [|reflexivity].
    unfold bind. now rewrite (recall_data_shared t tr Hsh). }
  rewrite (bind_Done _ _ _ _ _ E).
  destruct (m_file t) as [file|]; [|reflexivity].
  destruct (negb (file_enable_mmap file) && negb (is_null (m_data t)));
    reflexivity.
Qed.
End Destruction.

(** C1, the code at the failing input: a weights tensor on the accelerator
    whose file is mapped.  [prepare_data] allocates the accelerator buffer
    4096; whatever the copy engine answers and whatever sequence of
    [prepare_data] and [recall_data] follows, the trace at the end of the
    destructor holds that one allocation and no free at all, and the
    tensor still holds the handle. *)
Theorem mapped_gpu_buffer_is_never_freed (rt : Runtime) (ops : list Op) :
  exists t' tr',
    (r <- prepare_data inferllm_kernel_define rt mapped_gpu_weight ;;
     t1 <- run inferllm_kernel_define rt ops (snd r) ;;
     destroy t1) [] = Done t' tr' /\
    In (EvAllocate 40 4096) tr' /\ count is_alloc tr' = 1%nat /\
    m_data t' = 4096 /\ count is_free tr' = 0%nat.
Proof.
  set (K := inferllm_kernel_define).
  set (t1 := set_state (set_data mapped_gpu_weight 4096) Own).
  assert (Hprep : exists tr1,
             prepare_data K rt mapped_gpu_weight [] = Done (Own, t1) tr1 /\
             In (EvAllocate 40 4096) tr1 /\ count is_alloc tr1 = 1%nat /\
             count is_free tr1 = 0%nat).
  { rewrite (prepare_data_mmap_gpu K rt mapped_gpu_weight [] 40 mmap_file)
      by reflexivity.
    destruct (_ =? cudaSuccess); eexists; (split; [reflexivity|]);
      cbn; auto. }
  destruct Hprep as (tr1 & Hprep & Hin & Ha & Hfr).
  destruct (run_file_buffer K rt ops t1 tr1 40 mmap_file)
    as (t2 & Hrun & Hd2 & Hsh2 & Hf2 & _); try reflexivity; try discriminate.
  destruct (destroy_mapped t2 tr1 mmap_file) as (t3 & Hdes & Hd3);
    [exact Hsh2 | exact Hf2 | reflexivity |].
  exists t3, tr1.
  rewrite (bind_Done _ _ _ _ _ Hprep). cbn [snd].
  rewrite (bind_Done _ _ _ _ _ Hrun). rewrite Hdes.
  repeat split; try assumption. now rewrite Hd3, Hd2.
Qed.

(** C4, the code at the failing input: a tensor on a file that is not
    mapped, bound to the caller's buffer 777.  [recall_data] leaves the
    buffer alone, but the destructor calls the device free on it. *)
Theorem destructor_frees_shared_buffer :
  exists t1 t2,
    set_shared_memory inferllm_kernel_define read_host_weight 777 40 []
    = Done t1 [] /\
    m_shared t1 = true /\ m_data t1 = 777 /\
    recall_data t1 [] = Done (Own, t1) [] /\
    destroy t1 [] = Done t2 [EvFreeDevice 777].
Proof.
  exists (bound read_host_weight 777), (bound read_host_weight 777).
  repeat split.
Qed.

(** C8, the code at the failing input: a Float32 tensor of 10 elements on
    the accelerator whose file is not mapped.  Its length is 40 bytes; the
    file read and the copy move 40 bytes and the staging array is deleted,
    but the staging array allocated is 160 bytes, [new float[40]]. *)
Theorem staging_buffer_is_four_times_the_length :
  length_in_byte inferllm_kernel_define staged_gpu_weight [] = Done 40 [] /\
  exists t1,
    prepare_data inferllm_kernel_define good_runtime staged_gpu_weight []
    = Done (Own, t1)
           [EvAllocate 40 4096; EvNewArray 160 2000000;
            EvReadData 2000000 40 64; EvCudaMemcpy 4096 2000000 40 0;
            EvDeleteArray 2000000] /\
    m_data t1 = 4096.
Proof.
  split; [reflexivity|].
  exists (set_state (set_data staged_gpu_weight 4096) Own).
  split; reflexivity.
Qed.

(** * Further properties of the lifecycle *)

(** ** Release and destruction on their own *)

(** X1: releasing twice is releasing once.  On every tensor, a second
    [recall_data] right after a first one returns the same state, leaves
    the tensor as it is and adds no event: no handle is freed twice. *)
Theorem recall_data_idempotent (t : Tensor) (tr : Trace) :
  exists s t1 tr1,
    recall_data t tr = Done (s, t1) tr1 /\
    recall_data t1 tr1 = Done (s, t1) tr1.
Proof.
  destruct (m_shared t) eqn:Hsh.
  - exists (m_state t), t, tr.
    split; now apply recall_data_shared.
  - destruct (m_file t) as [file|] eqn:Hf.
    + exists OutSide, (set_state t OutSide), tr. split.
      * now apply recall_data_file with file.
      * now apply (recall_data_file (set_state t OutSide) tr file).
    + rewrite (recall_data_no_file t tr Hsh Hf).
      destruct (negb (is_null (m_data t)) && is_Own (m_state t)).
      * exists OutSide, (set_state (set_data t nullptr) OutSide),
          (tr ++ [EvFreeDevice (m_data t)]).
        split; [reflexivity|].
        now rewrite recall_data_no_file.
      * exists OutSide, (set_state t OutSide), tr. split; [reflexivity|].
        rewrite recall_data_no_file by assumption.
        cbn [set_state m_state is_Own]. now rewrite andb_false_r.
Qed.

(** X2: the destructor calls the device free at most once, and only on
    the handle the tensor holds, which is then non-null; it adds no other
    event.  In particular a tensor that holds no handle is destroyed
    without any call on its collaborators. *)
Theorem destroy_frees_at_most_once (t : Tensor) (tr : Trace) :
  exists t' ev,
    destroy t tr = Done t' (tr ++ ev) /\
    (ev = [] \/ (ev = [EvFreeDevice (m_data t)] /\ m_data t <> nullptr)).
Proof.
  destruct t as [d s sh dev f off dt n].
  unfold destroy, recall_data, bind, ret, free_device, emit.
  cbn [m_data m_state m_shared m_file m_device set_state set_data snd].
  destruct (is_null d) eqn:Hn.
  - destruct s, sh, f as [[[] g]|]; cbn; try rewrite Hn; cbn;
      eexists; exists []; rewrite app_nil_r;
      (split; [reflexivity | now left]).
  - assert (Hd : d <> nullptr) by (now apply is_null_false).
    destruct s, sh, f as [[[] g]|]; cbn; try rewrite Hn; cbn;
      first [ do 2 eexists; split; [reflexivity | right; now split]
            | eexists; exists []; rewrite app_nil_r;
              split; [reflexivity | now left] ].
Qed.

(** ** Tensors that own what they allocate *)

Section Balance.
Variable K : KernelDefine.
Variable rt : Runtime.

Lemma count_snoc_alloc ev n h :
  count is_alloc (ev ++ [EvAllocate n h]) = S (count is_alloc ev) /\
  count is_free (ev ++ [EvAllocate n h]) = count is_free ev.
Proof. rewrite !count_app. cbn. lia. Qed.

Lemma count_snoc_free ev h :
  count is_alloc (ev ++ [EvFreeDevice h]) = count is_alloc ev /\
  count is_free (ev ++ [EvFreeDevice h]) = S (count is_free ev).
Proof. rewrite !count_app. cbn. lia. Qed.

Lemma step_balanced o t tr ev len :
  self_owned t -> balanced t ev ->
  length_in_byte K t tr = Done len tr ->
  (forall tr' n, dev_allocate (m_device t) tr' n <> nullptr) ->
  exists s t' ev',
    step K rt o t (tr ++ ev) = Done (s, t') (tr ++ ev') /\
    self_owned t' /\ balanced t' ev' /\
    m_dtype t' = m_dtype t /\ m_length t' = m_length t /\
    m_device t' = m_device t.
Proof.
  intros (Hsh & Hf & Hinv) Hbal Hlen Hdev.
  assert (Hlen' : length_in_byte K t (tr ++ ev) = Done len (tr ++ ev))
    by (now apply length_in_byte_any with tr).
  unfold balanced, live in *.
  destruct o; cbn [step].
  - destruct (is_null (m_data t)) eqn:Hn.
    + apply is_null_true in Hn. destruct (m_state t) eqn:Hs.
      * exists Own, (set_state t Own), ev. split.
        { apply prepare_data_noop with len; [assumption|]. right. congruence. }
        unfold self_owned. cbn [set_state m_shared m_file m_state m_data
                                m_dtype m_length m_device].
        apply is_null_true in Hn. rewrite Hn.
        repeat split; auto; discriminate.
      * set (h := dev_allocate (m_device t) (tr ++ ev) len).
        exists Own, (set_state (set_data t h) Own), (ev ++ [EvAllocate len h]).
        split.
        { rewrite app_assoc. now apply prepare_data_no_file. }
        unfold self_owned. cbn [set_state set_data m_shared m_file m_state
                                m_data m_dtype m_length m_device].
        assert (Hh : is_null h = false) by (apply is_null_false, Hdev).
        rewrite Hh. destruct (count_snoc_alloc ev len h) as [-> ->].
        repeat split; auto; try discriminate. lia.
    + exists Own, (set_state t Own), ev. split.
      { apply prepare_data_noop with len; [assumption|]. left.
        now apply is_null_false. }
      unfold self_owned. cbn [set_state m_shared m_file m_state m_data
                              m_dtype m_length m_device].
      rewrite Hn. repeat split; auto; discriminate.
  - rewrite recall_data_no_file by assumption.
    destruct (is_null (m_data t)) eqn:Hn; cbn [negb andb].
    + exists OutSide, (set_state t OutSide), ev. split; [reflexivity|].
      unfold self_owned. cbn [set_state m_shared m_file m_state m_data
                              m_dtype m_length m_device].
      rewrite Hn. apply is_null_true in Hn. repeat split; auto.
    + destruct (m_state t) eqn:Hs; cbn [is_Own].
      * exists OutSide, (set_state (set_data t nullptr) OutSide),
          (ev ++ [EvFreeDevice (m_data t)]).
        split; [now rewrite app_assoc|].
        unfold self_owned. cbn [set_state set_data m_shared m_file m_state
                                m_data m_dtype m_length m_device].
        change (is_null nullptr) with true.
        destruct (count_snoc_free ev (m_data t)) as [-> ->].
        repeat split; auto. lia.
      * apply is_null_false in Hn. now elim Hn; apply Hinv.
Qed.

Lemma run_balanced ops : forall t tr ev len,
  self_owned t -> balanced t ev ->
  length_in_byte K t tr = Done len tr ->
  (forall tr' n, dev_allocate (m_device t) tr' n <> nullptr) ->
  exists t' ev',
    run K rt ops t (tr ++ ev) = Done t' (tr ++ ev') /\
    self_owned t' /\ balanced t' ev'.
Proof.
  induction ops as [|o ops IH]; intros t tr ev len Hown Hbal Hlen Hdev;
    cbn [run].
  - now exists t, ev.
  - destruct (step_balanced o t tr ev len Hown Hbal Hlen Hdev)
      as (s & t1 & ev1 & Hstep & Hown1 & Hbal1 & Hd & Hl & Hdv).
    rewrite (bind_Done _ _ _ _ _ Hstep). cbn [snd].
    apply (IH t1 tr ev1 len Hown1 Hbal1).
    + now rewrite (length_in_byte_congr K t t1) by assumption.
    + now rewrite Hdv.
Qed.

Lemma destroy_balanced t tr ev :
  self_owned t -> balanced t ev ->
  exists t' ev',
    destroy t (tr ++ ev) = Done t' (tr ++ ev') /\
    m_data t' = nullptr /\ count is_alloc ev' = count is_free ev'.
Proof.
  intros (Hsh & Hf & Hinv) Hbal. unfold balanced, live in Hbal.
  unfold destroy.
  destruct (m_state t) eqn:Hs; cbn [is_Own].
  - unfold bind. rewrite recall_data_no_file by assumption.
    rewrite Hs. cbn [is_Own]. rewrite andb_true_r.
    destruct (is_null (m_data t)) eqn:Hn; cbn [negb snd ret].
    + change (m_file (set_state t OutSide)) with (m_file t). rewrite Hf.
      exists (set_state t OutSide), ev.
      apply is_null_true in Hn.
      repeat split; [exact Hn | lia].
    + cbn [set_state set_data m_file]. rewrite Hf.
      exists (set_state (set_data t nullptr) OutSide),
        (ev ++ [EvFreeDevice (m_data t)]).
      destruct (count_snoc_free ev (m_data t)) as [-> ->].
      rewrite app_assoc. repeat split. lia.
  - unfold bind, ret. rewrite Hf. exists t, ev.
    rewrite (Hinv eq_refl) in Hbal. change (is_null nullptr) with true in Hbal.
    cbv iota in Hbal.
    repeat split; [now apply Hinv | lia].
Qed.
End Balance.

(** X3: no leak and no double free on a tensor that owns what it
    allocates.  For a tensor that is not shared, has no file and holds no
    handle, on a device whose allocator never returns null: after every
    sequence of [prepare_data] and [recall_data] followed by the
    destructor, the events added hold as many device frees as device
    allocations, and the handle is null. *)
Theorem owned_lifecycle_is_balanced
    (K : KernelDefine) (rt : Runtime) (t : Tensor) (tr : Trace) (len : Z)
    (ops : list Op) :
  m_shared t = false -> m_file t = None -> m_data t = nullptr ->
  length_in_byte K t tr = Done len tr ->
  (forall tr' n, dev_allocate (m_device t) tr' n <> nullptr) ->
  exists t' ev,
    (t1 <- run K rt ops t ;; destroy t1) tr = Done t' (tr ++ ev) /\
    count is_alloc ev = count is_free ev /\ m_data t' = nullptr.
Proof.
  intros Hsh Hf Hd Hlen Hdev.
  assert (Hown : self_owned t) by (repeat split; auto).
  assert (Hbal : balanced t []).
  { unfold balanced, live. rewrite Hd. reflexivity. }
  destruct (run_balanced K rt ops t tr [] len Hown Hbal Hlen Hdev)
    as (t1 & ev1 & Hrun & Hown1 & Hbal1).
  rewrite app_nil_r in Hrun.
  destruct (destroy_balanced t1 tr ev1 Hown1 Hbal1)
    as (t2 & ev2 & Hdes & Hnull & Hcount).
  exists t2, ev2. rewrite (bind_Done _ _ _ _ _ Hrun). now repeat split.
Qed.

Lemma owned_lifecycle_is_balanced_witness :
  exists t' ev,
    (t1 <- run inferllm_kernel_define good_runtime
             [Materialize; Release; Materialize; Materialize]
             activation_tensor ;;
     destroy t1) [] = Done t' ([] ++ ev) /\
    count is_alloc ev = count is_free ev /\ m_data t' = nullptr.
Proof.
  apply (owned_lifecycle_is_balanced inferllm_kernel_define good_runtime
           activation_tensor [] 80); try reflexivity.
  intros tr' n. unfold activation_tensor, fresh_tensor, host_device.
  cbn [m_device dev_allocate]. unfold bump_allocate, nullptr. lia.
Defined.

(** ** Tensors on a file *)

Section FileBacked.
Variable K : KernelDefine.
Variable rt : Runtime.



(** A step of a tensor on a mapped file and a host device: at most one
    call, to [get_mmap_data]. *)
Lemma step_mapped_host o t tr len file :
  m_shared t = false -> m_file t = Some file ->
  file_enable_mmap file = true -> dev_type (m_device t) = HostKernel ->
  length_in_byte K t tr = Done len tr ->
  exists s p ev,
    step K rt o t tr = Done (s, set_state (set_data t p) s) (tr ++ ev) /\
    Forall (fun e => is_mmap_event e = true) ev.
Proof.
  intros Hsh Hf Hm Hk Hlen. destruct o; cbn [step].
  - destruct (Z.eq_dec (m_data t) nullptr) as [Hd|Hd];
      [destruct (m_state t) eqn:Hs|].
    + exists Own, (m_data t), []. rewrite app_nil_r. split; [|constructor].
      rewrite (prepare_data_noop K rt t tr len Hlen); [reflexivity|].
      right. congruence.
    + rewrite (prepare_data_mmap_host K rt t tr len file Hlen Hd Hs Hf Hm Hk).
      do 3 eexists. split; [reflexivity|]. now repeat constructor.
    + exists Own, (m_data t), []. rewrite app_nil_r. split; [|constructor].
      now rewrite (prepare_data_noop K rt t tr len Hlen (or_introl Hd)).
  - exists OutSide, (m_data t), []. rewrite app_nil_r. split; [|constructor].
    now rewrite (recall_data_file t tr file Hsh Hf).
Qed.

Lemma run_mapped_host ops : forall t tr len file,
  m_shared t = false -> m_file t = Some file ->
  file_enable_mmap file = true -> dev_type (m_device t) = HostKernel ->
  length_in_byte K t tr = Done len tr ->
  exists t' ev,
    run K rt ops t tr = Done t' (tr ++ ev) /\
    Forall (fun e => is_mmap_event e = true) ev /\
    m_shared t' = false /\ m_file t' = Some file.
Proof.
  induction ops as [|o ops IH]; intros t tr len file Hsh Hf Hm Hk Hlen;
    cbn [run].
  - exists t, []. rewrite app_nil_r. repeat split; auto.
  - destruct (step_mapped_host o t tr len file Hsh Hf Hm Hk Hlen)
      as (s & p & ev & Hstep & Hev).
    rewrite (bind_Done _ _ _ _ _ Hstep). cbn [snd].
    destruct (IH (set_state (set_data t p) s) (tr ++ ev) len file Hsh Hf Hm Hk)
      as (t' & ev' & Hrun & Hev' & Hsh' & Hf').
    + rewrite (length_in_byte_congr K t) by reflexivity.
      now apply length_in_byte_any with tr.
    + exists t', (ev ++ ev'). rewrite app_assoc.
      repeat split; auto. now apply Forall_app.
Qed.
End FileBacked.



(** X5: a tensor on a file is loaded at most once.  For a tensor that is
    not shared and has a file, once a [prepare_data] has returned and left
    a non-null handle, every later sequence of [prepare_data] and
    [recall_data] returns, adds no event (no second read, mapping,
    allocation or copy) and keeps that handle.  That first [prepare_data]
    returns whenever the staging array, if needed, is provided. *)
Theorem file_tensor_loads_once
    (K : KernelDefine) (rt : Runtime) (t : Tensor) (tr : Trace) (len : Z)
    (file : InputFile) :
  m_shared t = false -> m_file t = Some file ->
  length_in_byte K t tr = Done len tr ->
  (forall s t1 tr1,
      prepare_data K rt t tr = Done (s, t1) tr1 ->
      m_data t1 <> nullptr ->
      forall ops, exists t',
        run K rt ops t1 tr1 = Done t' tr1 /\ m_data t' = m_data t1) /\
  (staging_returns rt t tr len ->
   exists t1 tr1, prepare_data K rt t tr = Done (Own, t1) tr1).
Proof.
  intros Hsh Hf Hlen. split.
  - intros s t1 tr1 Hret Hp ops.
    destruct (prepare_data_returns K rt t tr len s t1 tr1 Hlen Hret)
      as (p & ev & -> & -> & -> & _).
    destruct (run_file_buffer K rt ops (set_state (set_data t p) Own)
                (tr ++ ev) len file) as (t' & Hrun & Hd' & _); try assumption.
    { rewrite (length_in_byte_congr K t) by reflexivity.
      now apply length_in_byte_any with tr. }
    now exists t'.
  - intros Hst.
    destruct (prepare_data_total K rt t tr len Hlen Hst) as (p & ev & H & _).
    do 2 eexists. exact H.
Qed.

Lemma file_tensor_loads_once_witness :
  prepare_data inferllm_kernel_define good_runtime staged_gpu_weight []
  = Done (Own, set_state (set_data staged_gpu_weight 4096) Own)
         [EvAllocate 40 4096; EvNewArray 160 2000000;
          EvReadData 2000000 40 64; EvCudaMemcpy 4096 2000000 40 0;
          EvDeleteArray 2000000] /\
  exists t',
    run inferllm_kernel_define good_runtime
      [Release; Materialize; Materialize; Release]
      (set_state (set_data staged_gpu_weight 4096) Own)
      [EvAllocate 40 4096; EvNewArray 160 2000000;
       EvReadData 2000000 40 64; EvCudaMemcpy 4096 2000000 40 0;
       EvDeleteArray 2000000]
    = Done t'
        [EvAllocate 40 4096; EvNewArray 160 2000000;
         EvReadData 2000000 40 64; EvCudaMemcpy 4096 2000000 40 0;
         EvDeleteArray 2000000] /\
    m_data t' = 4096.
Proof.
  split; [reflexivity|].
  apply (proj1 (file_tensor_loads_once inferllm_kernel_define good_runtime
                  staged_gpu_weight [] 40 plain_file eq_refl eq_refl eq_refl)
               Own (set_state (set_data staged_gpu_weight 4096) Own));
    [reflexivity | discriminate].
Defined.

(** X6: a host tensor on a mapped file only ever holds a view.  For a
    tensor that is not shared, on a host device, whose file is mapped:
    every sequence of [prepare_data] and [recall_data] followed by the
    destructor returns, and every event it adds is a call to
    [get_mmap_data]; nothing is allocated, copied or freed. *)
Theorem mapped_host_view_is_never_freed
    (K : KernelDefine) (rt : Runtime) (t : Tensor) (tr : Trace) (len : Z)
    (file : InputFile) (ops : list Op) :
  m_shared t = false -> m_file t = Some file ->
  file_enable_mmap file = true -> dev_type (m_device t) = HostKernel ->
  length_in_byte K t tr = Done len tr ->
  exists t' ev,
    (t1 <- run K rt ops t ;; destroy t1) tr = Done t' (tr ++ ev) /\
    Forall (fun e => is_mmap_event e = true) ev /\
    count is_alloc ev = 0%nat /\ count is_free ev = 0%nat.
Proof.
  intros Hsh Hf Hm Hk Hlen.
  destruct (run_mapped_host K rt ops t tr len file Hsh Hf Hm Hk Hlen)
    as (t1 & ev & Hrun & Hev & Hsh1 & Hf1).
  destruct (destroy_mapped t1 (tr ++ ev) file Hsh1 Hf1 Hm) as (t2 & Hdes & _).
  exists t2, ev. rewrite (bind_Done _ _ _ _ _ Hrun).
  split; [exact Hdes|]. split; [exact Hev|].
  clear - Hev. induction Hev as [|e ev He _ [IHa IHf]]; [now split|].
  unfold count in *. cbn [filter].
  destruct e; try discriminate He. cbn [is_alloc is_free]. now split.
Qed.

Lemma mapped_host_view_is_never_freed_witness :
  exists t' ev,
    (t1 <- run inferllm_kernel_define good_runtime
             [Materialize; Release; Materialize] mapped_host_weight ;;
     destroy t1) [] = Done t' ([] ++ ev) /\
    Forall (fun e => is_mmap_event e = true) ev /\
    count is_alloc ev = 0%nat /\ count is_free ev = 0%nat.
Proof.
  apply (mapped_host_view_is_never_freed inferllm_kernel_define good_runtime
           mapped_host_weight [] 40 mmap_file); reflexivity.
Defined.

(** ** Binding and the rest of the lifecycle *)

(** X7: a bound buffer is left alone unless the tensor has a file that is
    not mapped.  After a successful [set_shared_memory(p, size)] on a
    tensor that has no file, or whose file is mapped, or with a null [p]:
    every sequence of [prepare_data] and [recall_data] followed by the
    destructor adds no event at all and leaves the tensor bound to [p]. *)
Theorem bound_buffer_is_left_alone
    (K : KernelDefine) (rt : Runtime) (t : Tensor) (p : ptr) (size : Z)
    (tr : Trace) (len : Z) (ops : list Op) :
  length_in_byte K t tr = Done len tr ->
  p = nullptr \/ len <= size ->
  m_file t = None \/
  (exists file, m_file t = Some file /\ file_enable_mmap file = true) \/
  p = nullptr ->
  (t0 <- set_shared_memory K t p size ;;
   t1 <- run K rt ops t0 ;;
   destroy t1) tr = Done (bound t p) tr.
Proof.
  intros Hlen Hsize Hfile.
  rewrite (bind_Done _ _ _ _ _ (set_shared_memory_ok K t p size tr len Hlen Hsize)).
  rewrite (bind_Done _ _ _ _ _ (run_bound K rt t p ops tr len Hlen)).
  rewrite (destroy_shared (bound t p) tr eq_refl).
  change (m_file (bound t p)) with (m_file t).
  change (m_data (bound t p)) with p.
  destruct Hfile as [Hf | [(file & Hf & Hm) | Hp]].
  - now rewrite Hf.
  - now rewrite Hf, Hm.
  - destruct (m_file t); [|reflexivity].
    subst p. change (is_null nullptr) with true.
    now rewrite andb_false_r.
Qed.

Lemma bound_buffer_is_left_alone_witness :
  (t0 <- set_shared_memory inferllm_kernel_define mapped_gpu_weight 777 64 ;;
   t1 <- run inferllm_kernel_define good_runtime
           [Release; Materialize; Release] t0 ;;
   destroy t1) [] = Done (bound mapped_gpu_weight 777) [].
Proof.
  apply (bound_buffer_is_left_alone inferllm_kernel_define good_runtime
           mapped_gpu_weight 777 64 [] 40).
  - reflexivity.
  - right. discriminate.
  - right. left. exists mmap_file. split; reflexivity.
Defined.

(** X8: binding external memory does not release what the tensor holds.
    On a tensor that is not shared and has no file, [prepare_data]
    allocates a buffer [h]; a successful [set_shared_memory(p, size)] then
    overwrites the handle with [p], and whatever sequence of
    [prepare_data] and [recall_data] and the destructor follow, the trace
    holds the allocation of [h] and nothing else: [h] is not freed. *)
Theorem binding_drops_owned_buffer
    (K : KernelDefine) (rt : Runtime) (t : Tensor) (p : ptr) (size : Z)
    (tr : Trace) (len : Z) (ops : list Op) :
  m_shared t = false -> m_file t = None ->
  m_data t = nullptr -> m_state t = OutSide ->
  length_in_byte K t tr = Done len tr ->
  p = nullptr \/ len <= size ->
  exists t',
    (r <- prepare_data K rt t ;;
     t0 <- set_shared_memory K (snd r) p size ;;
     t1 <- run K rt ops t0 ;;
     destroy t1) tr
    = Done t' (tr ++ [EvAllocate len (dev_allocate (m_device t) tr len)]) /\
    m_data t' = p /\ m_shared t' = true.
Proof.
  intros Hsh Hf Hd Hs Hlen Hsize.
  set (h := dev_allocate (m_device t) tr len).
  set (t1 := set_state (set_data t h) Own).
  set (tr1 := tr ++ [EvAllocate len h]).
  assert (Hlen1 : length_in_byte K t1 tr1 = Done len tr1).
  { rewrite (length_in_byte_congr K t t1) by reflexivity.
    now apply length_in_byte_any with tr. }
  exists (bound t1 p).
  rewrite (bind_Done _ _ _ _ _
             (prepare_data_no_file K rt t tr len Hlen Hd Hs Hf)).
  cbn [snd]. fold h t1 tr1.
  rewrite (bind_Done _ _ _ _ _
             (set_shared_memory_ok K t1 p size tr1 len Hlen1 Hsize)).
  rewrite (bind_Done _ _ _ _ _ (run_bound K rt t1 p ops tr1 len Hlen1)).
  rewrite (destroy_shared (bound t1 p) tr1 eq_refl).
  change (m_file (bound t1 p)) with (m_file t). rewrite Hf.
  now repeat split.
Qed.

Lemma binding_drops_owned_buffer_witness :
  exists t',
    (r <- prepare_data inferllm_kernel_define good_runtime activation_tensor ;;
     t0 <- set_shared_memory inferllm_kernel_define (snd r) 777 80 ;;
     t1 <- run inferllm_kernel_define good_runtime [Release; Materialize] t0 ;;
     destroy t1) []
    = Done t' ([] ++ [EvAllocate 80 4096]) /\
    m_data t' = 777 /\ m_shared t' = true.
Proof.
  apply (binding_drops_owned_buffer inferllm_kernel_define good_runtime
           activation_tensor 777 80 [] 80); try reflexivity.
  right. discriminate.
Defined.

(** ** Edge behaviour of [prepare_data] *)

(** X9: a null handle from the allocator is kept as the result.  On a
    tensor that is not shared, has no file and holds no handle, when the
    allocator returns null: [prepare_data] still returns [Own], with a null
    handle; a second [prepare_data] does not allocate again;
    [recall_data] then frees nothing and returns to [OutSide]; only after
    that does [prepare_data] call the allocator again. *)
Theorem null_allocation_is_not_retried
    (K : KernelDefine) (rt : Runtime) (t : Tensor) (tr : Trace) (len : Z) :
  m_shared t = false -> m_file t = None ->
  m_data t = nullptr -> m_state t = OutSide ->
  length_in_byte K t tr = Done len tr ->
  dev_allocate (m_device t) tr len = nullptr ->
  let tr1 := tr ++ [EvAllocate len nullptr] in
  exists t1 t2 t3,
    prepare_data K rt t tr = Done (Own, t1) tr1 /\
    m_data t1 = nullptr /\
    prepare_data K rt t1 tr1 = Done (Own, t1) tr1 /\
    recall_data t1 tr1 = Done (OutSide, t2) tr1 /\
    m_data t2 = nullptr /\
    prepare_data K rt t2 tr1
    = Done (Own, t3) (tr1 ++ [EvAllocate len (dev_allocate (m_device t) tr1 len)]) /\
    m_data t3 = dev_allocate (m_device t) tr1 len.
Proof.
  intros Hsh Hf Hd Hs Hlen Hnull tr1.
  set (t1 := set_state (set_data t nullptr) Own).
  set (t2 := set_state t1 OutSide).
  set (h := dev_allocate (m_device t) tr1 len).
  assert (Hlen1 : forall u, m_dtype u = m_dtype t -> m_length u = m_length t ->
                            length_in_byte K u tr1 = Done len tr1).
  { intros u Hdt Hl. rewrite (length_in_byte_congr K t u Hdt Hl).
    now apply length_in_byte_any with tr. }
  exists t1, t2, (set_state (set_data t2 h) Own).
  split.
  { rewrite (prepare_data_no_file K rt t tr len Hlen Hd Hs Hf).
    rewrite Hnull. reflexivity. }
  split; [reflexivity|]. split.
  { rewrite (prepare_data_noop K rt t1 tr1 len); [reflexivity| |].
    - now apply Hlen1.
    - right. discriminate. }
  split.
  { rewrite (recall_data_no_file t1 tr1 Hsh Hf). reflexivity. }
  split; [reflexivity|]. split; [|reflexivity].
  rewrite (prepare_data_no_file K rt t2 tr1 len); try reflexivity.
  - now apply Hlen1.
  - exact Hf.
Qed.

Lemma null_allocation_is_not_retried_witness :
  exists t1 t2 t3,
    prepare_data inferllm_kernel_define good_runtime starved_tensor []
    = Done (Own, t1) [EvAllocate 40 nullptr] /\
    m_data t1 = nullptr /\
    prepare_data inferllm_kernel_define good_runtime t1 [EvAllocate 40 nullptr]
    = Done (Own, t1) [EvAllocate 40 nullptr] /\
    recall_data t1 [EvAllocate 40 nullptr]
    = Done (OutSide, t2) [EvAllocate 40 nullptr] /\
    m_data t2 = nullptr /\
    prepare_data inferllm_kernel_define good_runtime t2 [EvAllocate 40 nullptr]
    = Done (Own, t3) [EvAllocate 40 nullptr; EvAllocate 40 4096] /\
    m_data t3 = 4096.
Proof.
  exact (null_allocation_is_not_retried inferllm_kernel_define good_runtime
           starved_tensor [] 40 eq_refl eq_refl eq_refl eq_refl eq_refl eq_refl).
Defined.

(** X10: on the staging path a failed copy leaves no sign.  For a tensor
    on the accelerator whose file is not mapped, once [new float[length]]
    has provided the staging array, whatever status [err] the copy
    returns: [prepare_data] returns [Own] with the device handle, the
    staging array is deleted right after the copy, and no log line is
    written. *)
Theorem staging_copy_status_is_discarded
    (K : KernelDefine) (rt : Runtime) (t : Tensor) (tr : Trace) (len : Z)
    (file : InputFile) (staging : ptr) :
  length_in_byte K t tr = Done len tr ->
  m_data t = nullptr -> m_state t = OutSide ->
  m_file t = Some file -> file_enable_mmap file = false ->
  dev_type (m_device t) = GPU ->
  len * sizeof_float <= SIZE_MAX ->
  rt_new rt (tr ++ [EvAllocate len (dev_allocate (m_device t) tr len)])
         (len * sizeof_float) = Some staging ->
  exists h err t1 ev,
    prepare_data K rt t tr = Done (Own, t1) (tr ++ ev) /\
    h = dev_allocate (m_device t) tr len /\
    ev = [EvAllocate len h;
          EvNewArray (len * sizeof_float) staging;
          EvReadData staging len (m_file_offset t);
          EvCudaMemcpy h staging len err;
          EvDeleteArray staging] /\
    err = rt_cudaMemcpy rt
            (tr ++ [EvAllocate len h;
                    EvNewArray (len * sizeof_float) staging;
                    EvReadData staging len (m_file_offset t)])
            h staging len /\
    count is_printf ev = 0%nat /\
    m_data t1 = h /\ m_state t1 = Own.
Proof.
  intros Hlen Hd Hs Hf Hm Hk Hsz Hnew.
  rewrite (prepare_data_read_gpu K rt t tr len file staging
             Hlen Hd Hs Hf Hm Hk Hsz Hnew).
  rewrite <- !app_assoc. cbn [app].
  do 4 eexists. split; [reflexivity|]. split; [reflexivity|].
  split; [reflexivity|]. split; [reflexivity|]. now repeat split.
Qed.

Lemma staging_copy_status_is_discarded_witness :
  exists h err t1 ev,
    prepare_data inferllm_kernel_define bad_runtime staged_gpu_weight []
    = Done (Own, t1) ([] ++ ev) /\
    h = 4096 /\
    ev = [EvAllocate 40 h; EvNewArray (40 * sizeof_float) 2000000;
          EvReadData 2000000 40 (m_file_offset staged_gpu_weight);
          EvCudaMemcpy h 2000000 40 err; EvDeleteArray 2000000] /\
    err = 1 /\
    count is_printf ev = 0%nat /\ m_data t1 = h /\ m_state t1 = Own.
Proof.
  assert (Hsz : 40 * sizeof_float <= SIZE_MAX) by discriminate.
  destruct (staging_copy_status_is_discarded inferllm_kernel_define
              bad_runtime staged_gpu_weight [] 40 plain_file 2000000
              eq_refl eq_refl eq_refl eq_refl eq_refl eq_refl Hsz eq_refl)
    as (h & err & t1 & ev & Hp & Hh & Hev & Herr & Hlog & Hd & Hs).
  exists h, err, t1, ev. now repeat split.
Defined.

(** X11: whatever path [prepare_data] takes, and whether it returns or is
    left by the exception of [new float[length]] on the staging path, it
    has called the device allocator at most once, it has freed nothing,
    and every allocation, mapping, file read and copy it has made is for
    exactly the length of the tensor, at the tensor's file offset; only
    the staging array has another size, [sizeof(float)] times the
    length. *)
Theorem prepare_data_transfers_the_length
    (K : KernelDefine) (rt : Runtime) (t : Tensor) (tr : Trace) (len : Z) :
  length_in_byte K t tr = Done len tr ->
  exists ev,
    ((exists t1, prepare_data K rt t tr = Done (Own, t1) (tr ++ ev)) \/
     (on_staging_path t = true /\
      exists exn, prepare_data K rt t tr = Thrown exn (tr ++ ev))) /\
    Forall (event_fits len (m_file_offset t)) ev /\
    (count is_alloc ev <= 1)%nat /\ count is_free ev = 0%nat.
Proof.
  intros Hlen.
  destruct (prepare_data_cases K rt t tr len Hlen)
    as [(p & ev & H & Hfr & Hfit & Ha) | (Hon & _ & exn & H)].
  - exists ev. split; [left; eexists; exact H|]. now repeat split.
  - eexists. split; [right; split; [exact Hon | exists exn; exact H]|].
    split; [now repeat constructor | cbn; lia].
Qed.

Lemma prepare_data_transfers_the_length_witness :
  length_in_byte inferllm_kernel_define huge_gpu_weight [] = Done (2 ^ 62) [] /\
  exists ev,
    ((exists t1,
         prepare_data inferllm_kernel_define good_runtime huge_gpu_weight []
         = Done (Own, t1) ([] ++ ev)) \/
     (on_staging_path huge_gpu_weight = true /\
      exists exn,
        prepare_data inferllm_kernel_define good_runtime huge_gpu_weight []
        = Thrown exn ([] ++ ev))) /\
    Forall (event_fits (2 ^ 62) (m_file_offset huge_gpu_weight)) ev /\
    (count is_alloc ev <= 1)%nat /\ count is_free ev = 0%nat.
Proof.
  split; [reflexivity|].
  exact (prepare_data_transfers_the_length inferllm_kernel_define good_runtime
           huge_gpu_weight [] (2 ^ 62) eq_refl).
Defined.

(** X14: when [new float[length]] throws on the staging path, because
    the size in bytes does not fit [size_t] or the heap does not provide
    the array, [prepare_data] does not return: the exception leaves it
    right after the device allocation, which is the only event of the
    call, so the device buffer just allocated is not freed by it. *)
Theorem staging_exception_leaves_prepare_data
    (K : KernelDefine) (rt : Runtime) (t : Tensor) (tr : Trace) (len : Z)
    (file : InputFile) :
  length_in_byte K t tr = Done len tr ->
  m_data t = nullptr -> m_state t = OutSide ->
  m_file t = Some file -> file_enable_mmap file = false ->
  dev_type (m_device t) = GPU ->
  SIZE_MAX < len * sizeof_float \/
  rt_new rt (tr ++ [EvAllocate len (dev_allocate (m_device t) tr len)])
         (len * sizeof_float) = None ->
  exists exn,
    prepare_data K rt t tr
    = Thrown exn (tr ++ [EvAllocate len (dev_allocate (m_device t) tr len)]).
Proof.
  intros Hlen Hd Hs Hf Hm Hk Hno.
  apply prepare_data_read_gpu_throws with file; try assumption.
  intros [Hsz Hnew]. destruct Hno as [Hbig|Hnone]; [lia | now apply Hnew].
Qed.

Lemma staging_exception_leaves_prepare_data_witness :
  (exists exn,
      prepare_data inferllm_kernel_define exhausted_runtime staged_gpu_weight []
      = Thrown exn ([] ++ [EvAllocate 40 4096])) /\
  (exists exn,
      prepare_data inferllm_kernel_define good_runtime huge_gpu_weight []
      = Thrown exn ([] ++ [EvAllocate (2 ^ 62) 4096])).
Proof.
  split.
  - apply (staging_exception_leaves_prepare_data inferllm_kernel_define
             exhausted_runtime staged_gpu_weight [] 40 plain_file);
      try reflexivity. right. reflexivity.
  - apply (staging_exception_leaves_prepare_data inferllm_kernel_define
             good_runtime huge_gpu_weight [] (2 ^ 62) plain_file);
      try reflexivity. left. reflexivity.
Defined.

(** ** What the destructor misses and what it oversteps *)

(** X12: on every tensor that is not shared, holds no handle, sits on the
    accelerator and has a mapped file, when the allocator returns a
    non-null handle: [prepare_data], any sequence of [prepare_data] and
    [recall_data], and the destructor add one device allocation and no
    device free, and the tensor holds the handle to the end. *)
Theorem mapped_accelerator_buffer_outlives_tensor
    (K : KernelDefine) (rt : Runtime) (t : Tensor) (tr : Trace) (len : Z)
    (file : InputFile) (ops : list Op) :
  m_shared t = false -> m_data t = nullptr -> m_state t = OutSide ->
  m_file t = Some file -> file_enable_mmap file = true ->
  dev_type (m_device t) = GPU ->
  length_in_byte K t tr = Done len tr ->
  let src := file_get_mmap_data file len (m_file_offset t) in
  let h := dev_allocate (m_device t)
             (tr ++ [EvGetMmapData len (m_file_offset t) src]) len in
  h <> nullptr ->
  exists t' ev,
    (r <- prepare_data K rt t ;;
     t1 <- run K rt ops (snd r) ;;
     destroy t1) tr = Done t' (tr ++ ev) /\
    In (EvAllocate len h) ev /\
    count is_alloc ev = 1%nat /\ count is_free ev = 0%nat /\
    m_data t' = h.
Proof.
  intros Hsh Hd Hs Hf Hm Hk Hlen src h Hh.
  set (t1 := set_state (set_data t h) Own).
  assert (Hprep : exists ev,
             prepare_data K rt t tr = Done (Own, t1) (tr ++ ev) /\
             In (EvAllocate len h) ev /\ count is_alloc ev = 1%nat /\
             count is_free ev = 0%nat).
  { rewrite (prepare_data_mmap_gpu K rt t tr len file Hlen Hd Hs Hf Hm Hk).
    fold src h. destruct (_ =? cudaSuccess); rewrite <- !app_assoc;
      eexists; (split; [reflexivity|]); cbn; auto. }
  destruct Hprep as (ev & Hprep & Hin & Ha & Hfr).
  destruct (run_file_buffer K rt ops t1 (tr ++ ev) len file)
    as (t2 & Hrun & Hd2 & Hsh2 & Hf2 & _); try assumption.
  { rewrite (length_in_byte_congr K t t1) by reflexivity.
    now apply length_in_byte_any with tr. }
  destruct (destroy_mapped t2 (tr ++ ev) file) as (t3 & Hdes & Hd3);
    [now rewrite Hsh2 | now rewrite Hf2 | exact Hm |].
  exists t3, ev.
  rewrite (bind_Done _ _ _ _ _ Hprep). cbn [snd].
  rewrite (bind_Done _ _ _ _ _ Hrun). rewrite Hdes.
  repeat split; try assumption. now rewrite Hd3, Hd2.
Qed.

Lemma mapped_accelerator_buffer_outlives_tensor_witness :
  exists t' ev,
    (r <- prepare_data inferllm_kernel_define bad_runtime mapped_gpu_weight ;;
     t1 <- run inferllm_kernel_define bad_runtime
             [Release; Materialize; Release] (snd r) ;;
     destroy t1) [] = Done t' ([] ++ ev) /\
    In (EvAllocate 40 4096) ev /\
    count is_alloc ev = 1%nat /\ count is_free ev = 0%nat /\
    m_data t' = 4096.
Proof.
  apply (mapped_accelerator_buffer_outlives_tensor inferllm_kernel_define
           bad_runtime mapped_gpu_weight [] 40 mmap_file);
    try reflexivity. discriminate.
Defined.

(** X13: on every tensor whose file is not mapped, a non-null buffer [p]
    bound with [set_shared_memory] survives every sequence of
    [prepare_data] and [recall_data] untouched, and is then passed to the
    device free by the destructor: the only event of the whole lifecycle
    is that free of [p]. *)
Theorem destructor_frees_bound_buffer
    (K : KernelDefine) (rt : Runtime) (t : Tensor) (p : ptr) (size : Z)
    (tr : Trace) (len : Z) (file : InputFile) (ops : list Op) :
  length_in_byte K t tr = Done len tr ->
  p <> nullptr -> len <= size ->
  m_file t = Some file -> file_enable_mmap file = false ->
  (t0 <- set_shared_memory K t p size ;;
   t1 <- run K rt ops t0 ;;
   destroy t1) tr = Done (bound t p) (tr ++ [EvFreeDevice p]).
Proof.
  intros Hlen Hp Hsize Hf Hm.
  rewrite (bind_Done _ _ _ _ _
             (set_shared_memory_ok K t p size tr len Hlen (or_intror Hsize))).
  rewrite (bind_Done _ _ _ _ _ (run_bound K rt t p ops tr len Hlen)).
  rewrite (destroy_shared (bound t p) tr eq_refl).
  change (m_file (bound t p)) with (m_file t).
  change (m_data (bound t p)) with p.
  apply is_null_false in Hp. now rewrite Hf, Hm, Hp.
Qed.

Lemma destructor_frees_bound_buffer_witness :
  (t0 <- set_shared_memory inferllm_kernel_define staged_gpu_weight 777 40 ;;
   t1 <- run inferllm_kernel_define good_runtime
           [Materialize; Release; Materialize] t0 ;;
   destroy t1) []
  = Done (bound staged_gpu_weight 777) ([] ++ [EvFreeDevice 777]).
Proof.
  apply (destructor_frees_bound_buffer inferllm_kernel_define good_runtime
           staged_gpu_weight 777 40 [] 40 plain_file);
    try reflexivity; discriminate.
Defined.
